(** * presentation-designer: the action handlers over the two-table store

    A shallow embedding of [src/actions/index.ts] and of the schema it is
    written against ([Presentations], [Slides]).  The relational store is a
    pair of row lists; every [db] call of the source is one primitive of a
    small state-and-failure monad that also records which table was touched,
    so that "before any store access" is a statement about that record.

    Numbers of the source ([orderIndex], [slideCount], [length]) are integer
    valued there (the schemas ask for [int()]); they are [Z] here.  Dates
    are [Z] as well.  [new Date()] and [crypto.randomUUID()] are inputs of a
    call, gathered in [Env].

    A JavaScript number is a double: the one sum the handlers take of a
    stored number, [Math.max(...) + 1], is [Number_add], exact up to 2^53
    and rounded as binary64 addition rounds beyond.  An order index that
    SQLite keeps as an integer outside the safe range of JavaScript is
    written by the store but cannot be handed back by the driver: see
    [driver_reads]. *)

From Stdlib Require Import String List ZArith Lia Bool Floats.SpecFloat.
Import ListNotations.
Local Open Scope string_scope.
Local Open Scope list_scope.
Local Open Scope Z_scope.

(** ** Schema *)

Definition Date := Z.

Module Presentations.
Record row : Type := {
  id : string;                    (* primary key *)
  userId : string;
  title : string;
  description : option string;
  theme : option string;
  aspectRatio : option string;
  slideCount : option Z;          (* optional column, cached count *)
  createdAt : Date;
  updatedAt : Date
}.
End Presentations.

Module Slides.
Record row : Type := {
  id : string;                    (* primary key *)
  presentationId : string;        (* references Presentations.id *)
  orderIndex : Z;
  layoutType : option string;
  title : option string;
  content : option string;
  notes : option string;
  rawData : option string;
  createdAt : Date;
  updatedAt : Date
}.
End Slides.

Inductive Table : Type := TPresentations | TSlides.

Record Db : Type := {
  presentations : list Presentations.row;
  slides : list Slides.row
}.

(** ** Failures, store accesses and the monad of a handler *)

Inductive Code : Type := UNAUTHORIZED | NOT_FOUND.

Inductive Failure : Type :=
| ActionError (code : Code) (message : string)
| ActionInputError                      (* the input schema rejected the input *)
| ConstraintError (t : Table)           (* an insert repeated a primary key *)
| DriverError (t : Table).              (* the driver could not hand a row back *)

Inductive Access : Type := Read (t : Table) | Write (t : Table).

Record World : Type := {
  db : Db;
  accesses : list Access                (* oldest first *)
}.

Definition Eff (A : Type) : Type := World -> (Failure + A) * World.

Definition ret {A} (a : A) : Eff A := fun w => (inr a, w).

Definition throw {A} (f : Failure) : Eff A := fun w => (inl f, w).

Definition bind {A B} (c : Eff A) (k : A -> Eff B) : Eff B :=
  fun w =>
    match c w with
    | (inl f, w') => (inl f, w')
    | (inr a, w') => k a w'
    end.

Notation "x <- c ;; k" := (bind c (fun x => k))
  (at level 61, c at next level, right associativity).

Definition touch (a : Access) (w : World) : World :=
  {| db := db w; accesses := accesses w ++ [a] |}.

(** ** The store primitives used by the handlers

    [select], [insert ... returning], [update ... returning] and [delete],
    each under its filter, with the usual relational meaning.
    An insert whose primary key is already present fails and stores
    nothing. *)

Definition select_Presentations (where_ : Presentations.row -> bool)
  : Eff (list Presentations.row) :=
  fun w => (inr (filter where_ (presentations (db w))), touch (Read TPresentations) w).

(** What the driver hands back of a number column.  A number the table
    keeps as a 64-bit integer comes back only if JavaScript represents it
    safely, that is up to 2^53 - 1 in magnitude; a number of magnitude 2^63
    or more is kept as a float and comes back as it is.  Reading a row whose
    number lies in between throws.  This is followed for [orderIndex], the
    number the handlers compute with; a [slideCount] is taken to come back
    as stored. *)
Definition driver_reads (v : Z) : bool :=
  (Z.abs v <=? 2 ^ 53 - 1) || (2 ^ 63 <=? Z.abs v).

Definition readable (s : Slides.row) : bool := driver_reads (Slides.orderIndex s).

Definition select_Slides (where_ : Slides.row -> bool) : Eff (list Slides.row) :=
  fun w =>
    let w1 := touch (Read TSlides) w in
    if forallb readable (filter where_ (slides (db w)))
    then (inr (filter where_ (slides (db w))), w1)
    else (inl (DriverError TSlides), w1).

Definition insert_Presentations (values : Presentations.row)
  : Eff (list Presentations.row) :=
  fun w =>
    let w1 := touch (Write TPresentations) w in
    if existsb (fun r => Presentations.id r =? Presentations.id values)%string
               (presentations (db w))
    then (inl (ConstraintError TPresentations), w1)
    else (inr [values],
          {| db := {| presentations := presentations (db w) ++ [values];
                      slides := slides (db w) |};
             accesses := accesses w1 |}).

(** The row is stored before [returning] reads it back: when the driver
    cannot read it, the insert has happened and the call throws. *)
Definition insert_Slides (values : Slides.row) : Eff (list Slides.row) :=
  fun w =>
    let w1 := touch (Write TSlides) w in
    if existsb (fun r => Slides.id r =? Slides.id values)%string (slides (db w))
    then (inl (ConstraintError TSlides), w1)
    else
      let w2 := {| db := {| presentations := presentations (db w);
                            slides := slides (db w) ++ [values] |};
                   accesses := accesses w1 |} in
      if readable values then (inr [values], w2) else (inl (DriverError TSlides), w2).

Definition update_rows {R} (set_ : R -> R) (where_ : R -> bool) (l : list R) : list R :=
  map (fun r => if where_ r then set_ r else r) l.

Definition update_Presentations (set_ : Presentations.row -> Presentations.row)
  (where_ : Presentations.row -> bool) : Eff (list Presentations.row) :=
  fun w =>
    let w1 := touch (Write TPresentations) w in
    (inr (map set_ (filter where_ (presentations (db w)))),
     {| db := {| presentations := update_rows set_ where_ (presentations (db w));
                 slides := slides (db w) |};
        accesses := accesses w1 |}).

Definition update_Slides (set_ : Slides.row -> Slides.row)
  (where_ : Slides.row -> bool) : Eff (list Slides.row) :=
  fun w =>
    let w1 := touch (Write TSlides) w in
    let w2 := {| db := {| presentations := presentations (db w);
                          slides := update_rows set_ where_ (slides (db w)) |};
                 accesses := accesses w1 |} in
    if forallb readable (map set_ (filter where_ (slides (db w))))
    then (inr (map set_ (filter where_ (slides (db w)))), w2)
    else (inl (DriverError TSlides), w2).

(** [delete] answers with [rowsAffected]. *)
Definition delete_Slides (where_ : Slides.row -> bool) : Eff nat :=
  fun w =>
    let w1 := touch (Write TSlides) w in
    (inr (length (filter where_ (slides (db w)))),
     {| db := {| presentations := presentations (db w);
                 slides := filter (fun r => negb (where_ r)) (slides (db w)) |};
        accesses := accesses w1 |}).

(** ** Request context *)

Record User : Type := { user_id : string }.

Record Locals : Type := { user : option User }.

Record ActionAPIContext : Type := { locals : option Locals }.

Record Env : Type := {
  now : Date;                (* what [new Date()] gives during the call *)
  randomUUID : string        (* what [crypto.randomUUID()] gives *)
}.

(** ** The two guards *)

(** [context.locals?.user] *)
Definition locals_user (context : ActionAPIContext) : option User :=
  match locals context with
  | Some l => user l
  | None => None
  end.

Definition requireUser (context : ActionAPIContext) : Eff User :=
  match locals_user context with
  | Some u => ret u
  | None => throw (ActionError UNAUTHORIZED "You must be signed in to perform this action.")
  end.

Definition owned_by (presentationId userId : string) (p : Presentations.row) : bool :=
  (Presentations.id p =? presentationId)%string
  && (Presentations.userId p =? userId)%string.

Definition getOwnedPresentation (presentationId userId : string)
  : Eff Presentations.row :=
  rows <- select_Presentations (owned_by presentationId userId) ;;
  match rows with
  | presentation :: _ => ret presentation
  | [] => throw (ActionError NOT_FOUND "Presentation not found.")
  end.

(** ** What an action answers on success *)

Inductive Output : Type :=
| OutPresentation (presentation : option Presentations.row)
| OutPresentations (items : list Presentations.row) (total : nat)
| OutSlide (slide : option Slides.row)
| OutSlides (items : list Slides.row) (total : nat)
| OutNone.

Definition nonempty (s : string) : bool := negb (s =? "")%string.

Definition supplied {A} (o : option A) : bool :=
  match o with Some _ => true | None => false end.

(** [{...(v !== undefined ? {f: v} : {})}] on a column: a supplied value
    replaces the stored one, an absent one leaves it. *)
Definition patch {A} (v : option A) (old : A) : A :=
  match v with Some x => x | None => old end.

Definition patch_opt {A} (v : option A) (old : option A) : option A :=
  match v with Some x => Some x | None => old end.

(** ** The seven actions: input schema and handler of each *)

Module createPresentation.
Record input : Type := {
  title : string;
  description : option string;
  theme : option string;
  aspectRatio : option string
}.

Definition schema (i : input) : bool := nonempty (title i).

Definition handler (i : input) (context : ActionAPIContext) (env : Env)
  : Eff Output :=
  user <- requireUser context ;;
  rows <- insert_Presentations
            {| Presentations.id := randomUUID env;
               Presentations.userId := user_id user;
               Presentations.title := title i;
               Presentations.description := description i;
               Presentations.theme := theme i;
               Presentations.aspectRatio := aspectRatio i;
               Presentations.slideCount := Some 0;
               Presentations.createdAt := now env;
               Presentations.updatedAt := now env |} ;;
  ret (OutPresentation (hd_error rows)).
End createPresentation.

Module updatePresentation.
Record input : Type := {
  id : string;
  title : option string;
  description : option string;
  theme : option string;
  aspectRatio : option string;
  slideCount : option Z
}.

Definition refine (i : input) : bool :=
  supplied (title i) || supplied (description i) || supplied (theme i)
  || supplied (aspectRatio i) || supplied (slideCount i).

Definition schema (i : input) : bool :=
  nonempty (id i)
  && match title i with Some t => nonempty t | None => true end
  && refine i.

Definition set_ (i : input) (updatedAt : Date) (p : Presentations.row)
  : Presentations.row :=
  {| Presentations.id := Presentations.id p;
     Presentations.userId := Presentations.userId p;
     Presentations.title := patch (title i) (Presentations.title p);
     Presentations.description := patch_opt (description i) (Presentations.description p);
     Presentations.theme := patch_opt (theme i) (Presentations.theme p);
     Presentations.aspectRatio := patch_opt (aspectRatio i) (Presentations.aspectRatio p);
     Presentations.slideCount := patch_opt (slideCount i) (Presentations.slideCount p);
     Presentations.createdAt := Presentations.createdAt p;
     Presentations.updatedAt := updatedAt |}.

Definition handler (i : input) (context : ActionAPIContext) (env : Env)
  : Eff Output :=
  user <- requireUser context ;;
  _ <- getOwnedPresentation (id i) (user_id user) ;;
  rows <- update_Presentations (set_ i (now env))
            (fun p => Presentations.id p =? id i)%string ;;
  ret (OutPresentation (hd_error rows)).
End updatePresentation.

Module listPresentations.
Definition handler (context : ActionAPIContext) (env : Env) : Eff Output :=
  user <- requireUser context ;;
  presentations <- select_Presentations
                     (fun p => Presentations.userId p =? user_id user)%string ;;
  ret (OutPresentations presentations (length presentations)).
End listPresentations.

(** [Math.max(...xs)] on a list that is not empty. *)
Definition Math_max (x : Z) (xs : list Z) : Z := fold_left Z.max xs x.

(** An integer as a double, and back. *)
Definition Number_of_Z (z : Z) : spec_float := binary_normalize 53 1024 z 0 false.

Definition Z_of_Number (f : spec_float) : Z :=
  match f with
  | S754_finite s m e =>
      cond_Zopp s (if 0 <=? e then Z.pos m * 2 ^ e else Z.pos m / 2 ^ (- e))
  | _ => 0
  end.

(** [a + b] on JavaScript numbers that hold integers.  A sum of at most
    2^53 in magnitude is a double, and is the result; any other sum is
    rounded to the nearest double, ties to even, as binary64 addition
    does. *)
Definition Number_add (a b : Z) : Z :=
  if Z.abs (a + b) <=? 2 ^ 53 then a + b
  else Z_of_Number (SFadd 53 1024 (Number_of_Z a) (Number_of_Z b)).

Module createSlide.
Record input : Type := {
  presentationId : string;
  orderIndex : option Z;
  layoutType : option string;
  title : option string;
  content : option string;
  notes : option string;
  rawData : option string
}.

Definition schema (i : input) : bool := nonempty (presentationId i).

(** [input.orderIndex ?? (existingOrders.length ? Math.max(...) + 1 : 1)];
    the column [orderIndex] is not optional, so [row.orderIndex ?? 0] is
    the stored number.  The sum is one of JavaScript numbers. *)
Definition nextOrder (i : input) (existingOrders : list Z) : Z :=
  match orderIndex i with
  | Some o => o
  | None =>
      match existingOrders with
      | [] => 1
      | x :: xs => Number_add (Math_max x xs) 1
      end
  end.

(** [{ slideCount: existingOrders.length + 1, updatedAt: now }]; a length
    is below 2^32, where the sum of numbers is the sum of integers. *)
Definition count_set (n : nat) (updatedAt : Date) (p : Presentations.row)
  : Presentations.row :=
  {| Presentations.id := Presentations.id p;
     Presentations.userId := Presentations.userId p;
     Presentations.title := Presentations.title p;
     Presentations.description := Presentations.description p;
     Presentations.theme := Presentations.theme p;
     Presentations.aspectRatio := Presentations.aspectRatio p;
     Presentations.slideCount := Some (Z.of_nat n + 1);
     Presentations.createdAt := Presentations.createdAt p;
     Presentations.updatedAt := updatedAt |}.

(** The row handed to [insert(Slides).values]. *)
Definition values (i : input) (env : Env) (existingOrders : list Z) : Slides.row :=
  {| Slides.id := randomUUID env;
     Slides.presentationId := presentationId i;
     Slides.orderIndex := nextOrder i existingOrders;
     Slides.layoutType := layoutType i;
     Slides.title := title i;
     Slides.content := content i;
     Slides.notes := notes i;
     Slides.rawData := rawData i;
     Slides.createdAt := now env;
     Slides.updatedAt := now env |}.

Definition handler (i : input) (context : ActionAPIContext) (env : Env)
  : Eff Output :=
  user <- requireUser context ;;
  _ <- getOwnedPresentation (presentationId i) (user_id user) ;;
  rows <- select_Slides
            (fun s => Slides.presentationId s =? presentationId i)%string ;;
  let existingOrders := map Slides.orderIndex rows in
  inserted <- insert_Slides (values i env existingOrders) ;;
  _ <- update_Presentations (count_set (length existingOrders) (now env))
         (fun p => Presentations.id p =? presentationId i)%string ;;
  ret (OutSlide (hd_error inserted)).
End createSlide.

Definition slide_in (id presentationId : string) (s : Slides.row) : bool :=
  (Slides.id s =? id)%string && (Slides.presentationId s =? presentationId)%string.

Module updateSlide.
Record input : Type := {
  id : string;
  presentationId : string;
  orderIndex : option Z;
  layoutType : option string;
  title : option string;
  content : option string;
  notes : option string;
  rawData : option string
}.

Definition refine (i : input) : bool :=
  supplied (orderIndex i) || supplied (layoutType i) || supplied (title i)
  || supplied (content i) || supplied (notes i) || supplied (rawData i).

Definition schema (i : input) : bool :=
  nonempty (id i) && nonempty (presentationId i) && refine i.

Definition set_ (i : input) (updatedAt : Date) (s : Slides.row) : Slides.row :=
  {| Slides.id := Slides.id s;
     Slides.presentationId := Slides.presentationId s;
     Slides.orderIndex := patch (orderIndex i) (Slides.orderIndex s);
     Slides.layoutType := patch_opt (layoutType i) (Slides.layoutType s);
     Slides.title := patch_opt (title i) (Slides.title s);
     Slides.content := patch_opt (content i) (Slides.content s);
     Slides.notes := patch_opt (notes i) (Slides.notes s);
     Slides.rawData := patch_opt (rawData i) (Slides.rawData s);
     Slides.createdAt := Slides.createdAt s;
     Slides.updatedAt := updatedAt |}.

Definition handler (i : input) (context : ActionAPIContext) (env : Env)
  : Eff Output :=
  user <- requireUser context ;;
  _ <- getOwnedPresentation (presentationId i) (user_id user) ;;
  found <- select_Slides (slide_in (id i) (presentationId i)) ;;
  match found with
  | [] => throw (ActionError NOT_FOUND "Slide not found.")
  | existing :: _ =>
      rows <- update_Slides (set_ i (now env))
                (fun s => Slides.id s =? id i)%string ;;
      ret (OutSlide (hd_error rows))
  end.
End updateSlide.

Module deleteSlide.
Record input : Type := {
  id : string;
  presentationId : string
}.

Definition schema (i : input) : bool :=
  nonempty (id i) && nonempty (presentationId i).

Definition handler (i : input) (context : ActionAPIContext) (env : Env)
  : Eff Output :=
  user <- requireUser context ;;
  _ <- getOwnedPresentation (presentationId i) (user_id user) ;;
  rowsAffected <- delete_Slides (slide_in (id i) (presentationId i)) ;;
  if (rowsAffected =? 0)%nat
  then throw (ActionError NOT_FOUND "Slide not found.")
  else ret OutNone.
End deleteSlide.

Module listSlides.
Record input : Type := {
  presentationId : string
}.

Definition schema (i : input) : bool := nonempty (presentationId i).

Definition handler (i : input) (context : ActionAPIContext) (env : Env)
  : Eff Output :=
  user <- requireUser context ;;
  _ <- getOwnedPresentation (presentationId i) (user_id user) ;;
  slides <- select_Slides
              (fun s => Slides.presentationId s =? presentationId i)%string ;;
  ret (OutSlides slides (length slides)).
End listSlides.

(** ** The exported [server] object *)

Inductive Call : Type :=
| CreatePresentation (i : createPresentation.input)
| UpdatePresentation (i : updatePresentation.input)
| ListPresentations
| CreateSlide (i : createSlide.input)
| UpdateSlide (i : updateSlide.input)
| DeleteSlide (i : deleteSlide.input)
| ListSlides (i : listSlides.input).

Definition schema (c : Call) : bool :=
  match c with
  | CreatePresentation i => createPresentation.schema i
  | UpdatePresentation i => updatePresentation.schema i
  | ListPresentations => true
  | CreateSlide i => createSlide.schema i
  | UpdateSlide i => updateSlide.schema i
  | DeleteSlide i => deleteSlide.schema i
  | ListSlides i => listSlides.schema i
  end.

Definition handler (c : Call) : ActionAPIContext -> Env -> Eff Output :=
  match c with
  | CreatePresentation i => createPresentation.handler i
  | UpdatePresentation i => updatePresentation.handler i
  | ListPresentations => listPresentations.handler
  | CreateSlide i => createSlide.handler i
  | UpdateSlide i => updateSlide.handler i
  | DeleteSlide i => deleteSlide.handler i
  | ListSlides i => listSlides.handler i
  end.

(** Modelled from the spec: [defineAction] is the framework's and is not
    part of the repository's sources.  An input that its schema rejects is
    turned down before the handler body runs, as a validation failure that
    is neither of the two domain errors; any other input is handed to the
    handler. *)
Definition defineAction {I} (input : I -> bool)
  (handler : I -> ActionAPIContext -> Env -> Eff Output)
  : I -> ActionAPIContext -> Env -> Eff Output :=
  fun i context env => if input i then handler i context env else throw ActionInputError.

Definition server (c : Call) : ActionAPIContext -> Env -> Eff Output :=
  match c with
  | CreatePresentation i =>
      defineAction createPresentation.schema createPresentation.handler i
  | UpdatePresentation i =>
      defineAction updatePresentation.schema updatePresentation.handler i
  | ListPresentations =>
      defineAction (fun _ : unit => true) (fun _ => listPresentations.handler) tt
  | CreateSlide i => defineAction createSlide.schema createSlide.handler i
  | UpdateSlide i => defineAction updateSlide.schema updateSlide.handler i
  | DeleteSlide i => defineAction deleteSlide.schema deleteSlide.handler i
  | ListSlides i => defineAction listSlides.schema listSlides.handler i
  end.

(** The presentation a call names, for the five actions that name one. *)
Definition addressed (c : Call) : option string :=
  match c with
  | CreatePresentation _ => None
  | UpdatePresentation i => Some (updatePresentation.id i)
  | ListPresentations => None
  | CreateSlide i => Some (createSlide.presentationId i)
  | UpdateSlide i => Some (updateSlide.presentationId i)
  | DeleteSlide i => Some (deleteSlide.presentationId i)
  | ListSlides i => Some (listSlides.presentationId i)
  end.

(** Running a script of calls, one after the other, whatever each answers. *)
Record Request : Type := {
  call : Call;
  context : ActionAPIContext;
  env : Env
}.

Definition serve (r : Request) (w : World) : World :=
  snd (server (call r) (context r) (env r) w).

Definition serve_all (rs : list Request) (w : World) : World :=
  fold_left (fun w r => serve r w) rs w.

Definition empty_world : World :=
  {| db := {| presentations := []; slides := [] |}; accesses := [] |}.

Definition signed_in (uid : string) : ActionAPIContext :=
  {| locals := Some {| user := Some {| user_id := uid |} |} |}.

Definition signed_out : ActionAPIContext := {| locals := Some {| user := None |} |}.

(** ** Store predicates *)

Definition slides_of (presentationId : string) (d : Db) : list Slides.row :=
  filter (fun s => Slides.presentationId s =? presentationId)%string (slides d).

(** The cached count of every presentation is the number of its slides. *)
Definition counts_ok (d : Db) : Prop :=
  forall p, In p (presentations d) ->
    Presentations.slideCount p
    = Some (Z.of_nat (length (slides_of (Presentations.id p) d))).

(** The schema's constraints: both primary keys, and the reference from a
    slide to its presentation. *)
Definition keys_ok (d : Db) : Prop :=
  NoDup (map Presentations.id (presentations d))
  /\ NoDup (map Slides.id (slides d)).

Definition refs_ok (d : Db) : Prop :=
  forall s, In s (slides d) ->
    exists p, In p (presentations d) /\ Presentations.id p = Slides.presentationId s.


(** ** Sample requests, used to run the handlers on concrete stores *)

Definition at_ (t : Date) (uuid : string) : Env := {| now := t; randomUUID := uuid |}.

Definition new_deck : createPresentation.input :=
  {| createPresentation.title := "Q1 Review";
     createPresentation.description := None;
     createPresentation.theme := None;
     createPresentation.aspectRatio := None |}.

Definition new_slide (pid : string) (order : option Z) : createSlide.input :=
  {| createSlide.presentationId := pid;
     createSlide.orderIndex := order;
     createSlide.layoutType := None;
     createSlide.title := None;
     createSlide.content := None;
     createSlide.notes := None;
     createSlide.rawData := None |}.

Definition deck_patch (pid : string) (title : option string) (count : option Z)
  : updatePresentation.input :=
  {| updatePresentation.id := pid;
     updatePresentation.title := title;
     updatePresentation.description := None;
     updatePresentation.theme := None;
     updatePresentation.aspectRatio := None;
     updatePresentation.slideCount := count |}.

Definition slide_patch (sid pid : string) (title : option string)
  : updateSlide.input :=
  {| updateSlide.id := sid;
     updateSlide.presentationId := pid;
     updateSlide.orderIndex := None;
     updateSlide.layoutType := None;
     updateSlide.title := title;
     updateSlide.content := None;
     updateSlide.notes := None;
     updateSlide.rawData := None |}.

Definition slide_ref (sid pid : string) : deleteSlide.input :=
  {| deleteSlide.id := sid; deleteSlide.presentationId := pid |}.

Definition by_ (uid : string) (t : Date) (uuid : string) (c : Call) : Request :=
  {| call := c; context := signed_in uid; env := at_ t uuid |}.

(** alice creates a deck. *)
Definition one_deck : World :=
  serve_all [by_ "alice" 10 "p1" (CreatePresentation new_deck)] empty_world.

(** ... and puts two slides in it, without choosing their order. *)
Definition two_slides : World :=
  serve_all [by_ "alice" 20 "s1" (CreateSlide (new_slide "p1" None));
             by_ "alice" 30 "s2" (CreateSlide (new_slide "p1" None))] one_deck.

(** alice creates a deck, adds a slide at place 5, on its own. *)
Definition slide_at_five : World :=
  serve_all [by_ "alice" 20 "s1" (CreateSlide (new_slide "p1" (Some 5)))] one_deck.

(** alice creates a deck, adds a slide and deletes it again. *)
Definition slide_deleted : World :=
  serve_all [by_ "alice" 20 "s1" (CreateSlide (new_slide "p1" None));
             by_ "alice" 30 "" (DeleteSlide (slide_ref "s1" "p1"))] one_deck.

(** alice owns two decks and the only slide is in the first. *)
Definition two_decks : World :=
  serve_all [by_ "alice" 20 "p2" (CreatePresentation new_deck);
             by_ "alice" 30 "s1" (CreateSlide (new_slide "p1" None))] one_deck.

Definition deck (pid uid : string) (count : Z) (created updated : Date)
  : Presentations.row :=
  {| Presentations.id := pid;
     Presentations.userId := uid;
     Presentations.title := "Q1 Review";
     Presentations.description := None;
     Presentations.theme := None;
     Presentations.aspectRatio := None;
     Presentations.slideCount := Some count;
     Presentations.createdAt := created;
     Presentations.updatedAt := updated |}.

(** The calls that are shown below to keep the cached counts exact: all but
    [deleteSlide] and an [updatePresentation] that supplies [slideCount]. *)
Definition keeps_counts (c : Call) : bool :=
  match c with
  | DeleteSlide _ => false
  | UpdatePresentation i => negb (supplied (updatePresentation.slideCount i))
  | _ => true
  end.

(** The spec's first scenario as one script, from the empty store. *)
Definition scenario : list Request :=
  [by_ "alice" 10 "p1" (CreatePresentation new_deck);
   by_ "alice" 20 "s1" (CreateSlide (new_slide "p1" None));
   by_ "alice" 30 "s2" (CreateSlide (new_slide "p1" None))].

(** alice's deck with its two slides, and a deck of bob's beside it. *)
Definition two_owners : World :=
  serve_all [by_ "bob" 40 "p3" (CreatePresentation new_deck)] two_slides.

(** alice's deck with one slide, placed at 10^21 by its creator. *)
Definition slide_at_1e21 : World :=
  serve_all [by_ "alice" 20 "s1" (CreateSlide (new_slide "p1" (Some (10 ^ 21))))] one_deck.


(** ** Basic facts about the monad and the guards *)

Ltac distinct_keys :=
  vm_compute; repeat (constructor; [simpl; intuition discriminate|]); constructor.

Lemma db_touch (a : Access) (w : World) : db (touch a w) = db w.
Proof. reflexivity. Qed.

Lemma server_valid (c : Call) (ctx : ActionAPIContext) (e : Env) (w : World) :
  schema c = true -> server c ctx e w = handler c ctx e w.
Proof.
  destruct c; simpl; unfold defineAction; intros H; try rewrite H; reflexivity.
Qed.

Lemma server_invalid (c : Call) (ctx : ActionAPIContext) (e : Env) (w : World) :
  schema c = false -> server c ctx e w = (inl ActionInputError, w).
Proof.
  destruct c; simpl; unfold defineAction; intros H;
    try rewrite H; try discriminate; reflexivity.
Qed.

Lemma requireUser_none (ctx : ActionAPIContext) (w : World) :
  locals_user ctx = None ->
  requireUser ctx w
  = (inl (ActionError UNAUTHORIZED "You must be signed in to perform this action."), w).
Proof. intros H. unfold requireUser. rewrite H. reflexivity. Qed.

Lemma requireUser_some (ctx : ActionAPIContext) (u : User) (w : World) :
  locals_user ctx = Some u -> requireUser ctx w = (inr u, w).
Proof. intros H. unfold requireUser. rewrite H. reflexivity. Qed.

Lemma filter_none {A} (f : A -> bool) (l : list A) :
  (forall x, In x l -> f x = false) -> filter f l = [].
Proof.
  induction l as [|a l IH]; simpl; intros H; [reflexivity|].
  rewrite (H a (or_introl eq_refl)). apply IH. intros x Hx. apply H. now right.
Qed.

Lemma filter_all {A} (f : A -> bool) (l : list A) :
  (forall x, In x l -> f x = true) -> filter f l = l.
Proof.
  induction l as [|a l IH]; simpl; intros H; [reflexivity|].
  rewrite (H a (or_introl eq_refl)). f_equal. apply IH. intros x Hx. apply H. now right.
Qed.

Lemma getOwnedPresentation_missing (pid uid : string) (w : World) :
  (forall p, In p (presentations (db w)) ->
     Presentations.id p = pid -> Presentations.userId p <> uid) ->
  getOwnedPresentation pid uid w
  = (inl (ActionError NOT_FOUND "Presentation not found."), touch (Read TPresentations) w).
Proof.
  intros H. unfold getOwnedPresentation, bind, select_Presentations.
  rewrite filter_none; [reflexivity|].
  intros p Hp. unfold owned_by.
  destruct (String.eqb_spec (Presentations.id p) pid) as [E|E]; [|reflexivity].
  destruct (String.eqb_spec (Presentations.userId p) uid) as [E'|E']; [|reflexivity].
  exfalso. exact (H p Hp E E').
Qed.

Lemma getOwnedPresentation_found (pid uid : string) (w : World) (p : Presentations.row) :
  In p (presentations (db w)) ->
  Presentations.id p = pid -> Presentations.userId p = uid ->
  exists q, getOwnedPresentation pid uid w = (inr q, touch (Read TPresentations) w)
            /\ In q (presentations (db w))
            /\ Presentations.id q = pid /\ Presentations.userId q = uid.
Proof.
  intros Hin Hid Hu. unfold getOwnedPresentation, bind, select_Presentations.
  destruct (filter (owned_by pid uid) (presentations (db w))) as [|q l] eqn:F.
  - exfalso.
    assert (Hp : In p (filter (owned_by pid uid) (presentations (db w)))).
    { apply filter_In. split; [exact Hin|]. unfold owned_by.
      rewrite Hid, Hu, !String.eqb_refl. reflexivity. }
    rewrite F in Hp. exact Hp.
  - exists q. split; [reflexivity|].
    assert (Hq : In q (filter (owned_by pid uid) (presentations (db w))))
      by (rewrite F; now left).
    apply filter_In in Hq. destruct Hq as [Hq Ho]. unfold owned_by in Ho.
    apply andb_true_iff in Ho. destruct Ho as [Ho1 Ho2].
    apply String.eqb_eq in Ho1, Ho2. auto.
Qed.

Lemma getOwnedPresentation_inv (pid uid : string) (w w' : World) (q : Presentations.row) :
  getOwnedPresentation pid uid w = (inr q, w') ->
  w' = touch (Read TPresentations) w
  /\ In q (presentations (db w))
  /\ Presentations.id q = pid /\ Presentations.userId q = uid.
Proof.
  unfold getOwnedPresentation, bind, select_Presentations.
  destruct (filter (owned_by pid uid) (presentations (db w))) as [|q0 l] eqn:F;
    unfold throw, ret; intros H; inversion H; subst.
  assert (Hq : In q (filter (owned_by pid uid) (presentations (db w))))
    by (rewrite F; now left).
  apply filter_In in Hq. destruct Hq as [Hq Ho]. unfold owned_by in Ho.
  apply andb_true_iff in Ho. destruct Ho as [Ho1 Ho2].
  apply String.eqb_eq in Ho1, Ho2. auto.
Qed.

(** ** Failure paths *)

(** C6: whichever of the seven actions is called, when the request context
    carries no user the handler fails with [UNAUTHORIZED] and the world it
    leaves is the one it got: same store, and no access recorded.  The same
    holds of the exported action on every input its schema accepts. *)
Theorem unauthenticated_call_is_rejected
  (c : Call) (ctx : ActionAPIContext) (e : Env) (w : World) :
  locals_user ctx = None ->
  handler c ctx e w
  = (inl (ActionError UNAUTHORIZED "You must be signed in to perform this action."), w)
  /\ (schema c = true ->
      server c ctx e w
      = (inl (ActionError UNAUTHORIZED "You must be signed in to perform this action."), w)).
Proof.
  intros U.
  assert (H : handler c ctx e w
    = (inl (ActionError UNAUTHORIZED "You must be signed in to perform this action."), w)).
  { destruct c; simpl;
      [ unfold createPresentation.handler | unfold updatePresentation.handler
      | unfold listPresentations.handler | unfold createSlide.handler
      | unfold updateSlide.handler | unfold deleteSlide.handler
      | unfold listSlides.handler ];
      unfold bind; rewrite (requireUser_none ctx w U); reflexivity. }
  split; [exact H|]. intros V. rewrite server_valid; assumption.
Qed.

Lemma unauthenticated_call_is_rejected_witness :
  locals_user signed_out = None
  /\ server (DeleteSlide (slide_ref "s1" "p1")) signed_out (at_ 40 "") two_slides
     = (inl (ActionError UNAUTHORIZED "You must be signed in to perform this action."),
        two_slides).
Proof.
  split; [reflexivity|].
  apply (unauthenticated_call_is_rejected
           (DeleteSlide (slide_ref "s1" "p1")) signed_out (at_ 40 "") two_slides);
    reflexivity.
Defined.

(** C9: an [updatePresentation] input that supplies none of title,
    description, theme, aspectRatio, slideCount, and an [updateSlide] input
    that supplies none of orderIndex, layoutType, title, content, notes,
    rawData, is turned down as a validation failure whatever the context:
    the world is returned as it was (store unchanged, no access recorded),
    and the failure is not an [ActionError], so neither [UNAUTHORIZED] nor
    [NOT_FOUND]. *)
Theorem update_without_fields_fails_validation :
  (forall (i : updatePresentation.input) ctx e w,
      updatePresentation.title i = None ->
      updatePresentation.description i = None ->
      updatePresentation.theme i = None ->
      updatePresentation.aspectRatio i = None ->
      updatePresentation.slideCount i = None ->
      server (UpdatePresentation i) ctx e w = (inl ActionInputError, w)
      /\ forall code message,
           fst (server (UpdatePresentation i) ctx e w) <> inl (ActionError code message))
  /\ (forall (i : updateSlide.input) ctx e w,
      updateSlide.orderIndex i = None ->
      updateSlide.layoutType i = None ->
      updateSlide.title i = None ->
      updateSlide.content i = None ->
      updateSlide.notes i = None ->
      updateSlide.rawData i = None ->
      server (UpdateSlide i) ctx e w = (inl ActionInputError, w)
      /\ forall code message,
           fst (server (UpdateSlide i) ctx e w) <> inl (ActionError code message)).
Proof.
  split.
  - intros i ctx e w H1 H2 H3 H4 H5.
    assert (S : schema (UpdatePresentation i) = false).
    { simpl. unfold updatePresentation.schema, updatePresentation.refine.
      rewrite H1, H2, H3, H4, H5. simpl. apply andb_false_r. }
    rewrite (server_invalid _ ctx e w S). split; [reflexivity|].
    simpl. discriminate.
  - intros i ctx e w H1 H2 H3 H4 H5 H6.
    assert (S : schema (UpdateSlide i) = false).
    { simpl. unfold updateSlide.schema, updateSlide.refine.
      rewrite H1, H2, H3, H4, H5, H6. simpl. apply andb_false_r. }
    rewrite (server_invalid _ ctx e w S). split; [reflexivity|].
    simpl. discriminate.
Qed.

Lemma update_without_fields_fails_validation_witness :
  server (UpdatePresentation (deck_patch "p1" None None)) (signed_in "alice")
         (at_ 40 "") two_slides = (inl ActionInputError, two_slides)
  /\ server (UpdateSlide (slide_patch "s1" "p1" None)) signed_out
            (at_ 40 "") two_slides = (inl ActionInputError, two_slides).
Proof.
  split.
  - apply (proj1 update_without_fields_fails_validation
             (deck_patch "p1" None None) (signed_in "alice") (at_ 40 "") two_slides);
      reflexivity.
  - apply (proj2 update_without_fields_fails_validation
             (slide_patch "s1" "p1" None) signed_out (at_ 40 "") two_slides);
      reflexivity.
Defined.

(** C5: for each of the five actions that name a presentation, when no row
    of the store carries both that identifier and the caller's user
    identifier, the handler fails with [NOT_FOUND].  The hypothesis does not
    tell a missing identifier from one held by another user, and the answer
    is the same value in both cases: the failure, and a world whose store is
    untouched after the single read of the ownership guard.  [listSlides]
    is one of the five, so a non-owner gets [NOT_FOUND], not an empty
    list. *)
Theorem unowned_presentation_is_not_found
  (c : Call) (pid : string) (u : User) (ctx : ActionAPIContext) (e : Env) (w : World) :
  addressed c = Some pid ->
  locals_user ctx = Some u ->
  (forall p, In p (presentations (db w)) ->
     Presentations.id p = pid -> Presentations.userId p <> user_id u) ->
  handler c ctx e w
  = (inl (ActionError NOT_FOUND "Presentation not found."),
     touch (Read TPresentations) w)
  /\ (schema c = true ->
      server c ctx e w
      = (inl (ActionError NOT_FOUND "Presentation not found."),
         touch (Read TPresentations) w)).
Proof.
  intros A U H.
  assert (G : handler c ctx e w
    = (inl (ActionError NOT_FOUND "Presentation not found."),
       touch (Read TPresentations) w)).
  { destruct c; simpl in A; try discriminate A; injection A as A; simpl;
      [ unfold updatePresentation.handler | unfold createSlide.handler
      | unfold updateSlide.handler | unfold deleteSlide.handler
      | unfold listSlides.handler ];
      unfold bind; rewrite (requireUser_some ctx u w U); rewrite A;
      rewrite (getOwnedPresentation_missing pid (user_id u) w H); reflexivity. }
  split; [exact G|]. intros V. rewrite server_valid; assumption.
Qed.

Lemma unowned_presentation_is_not_found_witness :
  server (ListSlides {| listSlides.presentationId := "p1" |}) (signed_in "bob")
         (at_ 40 "") two_slides
  = (inl (ActionError NOT_FOUND "Presentation not found."),
     touch (Read TPresentations) two_slides)
  /\ server (ListSlides {| listSlides.presentationId := "p9" |}) (signed_in "bob")
            (at_ 40 "") two_slides
     = (inl (ActionError NOT_FOUND "Presentation not found."),
        touch (Read TPresentations) two_slides).
Proof.
  split.
  - apply (unowned_presentation_is_not_found
             (ListSlides {| listSlides.presentationId := "p1" |}) "p1"
             {| user_id := "bob" |} (signed_in "bob") (at_ 40 "") two_slides);
      try reflexivity.
    intros p [<-|[]] _. simpl. discriminate.
  - apply (unowned_presentation_is_not_found
             (ListSlides {| listSlides.presentationId := "p9" |}) "p9"
             {| user_id := "bob" |} (signed_in "bob") (at_ 40 "") two_slides);
      try reflexivity.
    intros p [<-|[]]. simpl. discriminate.
Defined.


Lemma filter_negb_none {A} (f : A -> bool) (l : list A) :
  (forall x, In x l -> f x = false) -> filter (fun x => negb (f x)) l = l.
Proof.
  intros H. apply filter_all. intros x Hx. rewrite (H x Hx). reflexivity.
Qed.



(** ** Creating a slide *)

Lemma Math_max_fold (xs : list Z) :
  forall x, In (Math_max x xs) (x :: xs)
            /\ forall y, In y (x :: xs) -> y <= Math_max x xs.
Proof.
  unfold Math_max. induction xs as [|a xs IH]; intros x; simpl.
  - split; [now left|]. intros y [<-|[]]. lia.
  - destruct (IH (Z.max x a)) as [Hin Hge]. split.
    + destruct Hin as [Hin|Hin]; [|right; right; exact Hin].
      rewrite <- Hin.
      destruct (Z.max_spec x a) as [[_ E]|[_ E]]; rewrite E; auto.
    + intros y [<-|[<-|Hy]].
      * specialize (Hge (Z.max x a) (or_introl eq_refl)). lia.
      * specialize (Hge (Z.max x a) (or_introl eq_refl)). lia.
      * apply Hge. now right.
Qed.

(** What a successful [createSlide] has done, read off the handler. *)
Lemma createSlide_inv (i : createSlide.input) ctx e w w' out :
  createSlide.handler i ctx e w = (inr out, w') ->
  exists u q,
    locals_user ctx = Some u
    /\ In q (presentations (db w))
    /\ Presentations.id q = createSlide.presentationId i
    /\ Presentations.userId q = user_id u
    /\ out = OutSlide (Some (createSlide.values i e
               (map Slides.orderIndex (slides_of (createSlide.presentationId i) (db w)))))
    /\ presentations (db w')
       = update_rows
           (createSlide.count_set
              (length (slides_of (createSlide.presentationId i) (db w))) (now e))
           (fun p => Presentations.id p =? createSlide.presentationId i)%string
           (presentations (db w))
    /\ slides (db w')
       = slides (db w)
         ++ [createSlide.values i e
               (map Slides.orderIndex (slides_of (createSlide.presentationId i) (db w)))].
Proof.
  unfold createSlide.handler, bind, requireUser.
  destruct (locals_user ctx) as [u|] eqn:U; [|discriminate]. unfold ret at 1.
  destruct (getOwnedPresentation _ _ w) as [[f|q] w1] eqn:G; [discriminate|].
  apply getOwnedPresentation_inv in G. destruct G as (-> & Hq & Hid & Hu).
  unfold select_Slides, insert_Slides. rewrite !db_touch.
  fold (slides_of (createSlide.presentationId i) (db w)).
  destruct (forallb readable (slides_of (createSlide.presentationId i) (db w)));
    [|discriminate].
  rewrite !db_touch.
  destruct (existsb _ (slides (db w))); [discriminate|].
  destruct (readable _); [|discriminate].
  unfold update_Presentations, ret. intros H. inversion H; subst; clear H.
  exists u, q. simpl. rewrite length_map.
  repeat split; auto.
Qed.

(** ... and it does succeed for a signed-in owner, on an input the schema
    accepts, when the fresh identifier is not yet a slide's and the driver
    can read the presentation's order indices and the new one. *)
Lemma createSlide_succeeds (i : createSlide.input) (u : User) ctx e w
  (p : Presentations.row) :
  createSlide.schema i = true ->
  locals_user ctx = Some u ->
  In p (presentations (db w)) ->
  Presentations.id p = createSlide.presentationId i ->
  Presentations.userId p = user_id u ->
  (forall s, In s (slides (db w)) -> Slides.id s <> randomUUID e) ->
  forallb readable (slides_of (createSlide.presentationId i) (db w)) = true ->
  readable (createSlide.values i e
              (map Slides.orderIndex (slides_of (createSlide.presentationId i) (db w))))
  = true ->
  exists w',
    server (CreateSlide i) ctx e w
    = (inr (OutSlide (Some (createSlide.values i e
              (map Slides.orderIndex (slides_of (createSlide.presentationId i) (db w)))))),
       w').
Proof.
  intros V U Hp Hid Hu Hfresh R1 R2.
  rewrite (server_valid (CreateSlide i) ctx e w V). simpl.
  destruct (getOwnedPresentation_found _ _ w p Hp Hid Hu) as (q & G & _).
  unfold createSlide.handler, bind.
  rewrite (requireUser_some ctx u w U), G.
  unfold select_Slides, insert_Slides. rewrite !db_touch.
  fold (slides_of (createSlide.presentationId i) (db w)). rewrite R1, !db_touch.
  destruct (existsb _ (slides (db w))) eqn:X.
  - apply existsb_exists in X. destruct X as (s & Hs & E).
    apply String.eqb_eq in E. exfalso. exact (Hfresh s Hs E).
  - rewrite R2. unfold update_Presentations, ret. eexists. reflexivity.
Qed.

Lemma server_ok_inv (c : Call) ctx e w w' out :
  server c ctx e w = (inr out, w') ->
  schema c = true /\ handler c ctx e w = (inr out, w').
Proof.
  intros H. destruct (schema c) eqn:V.
  - split; [reflexivity|]. rewrite <- (server_valid c ctx e w V). exact H.
  - rewrite (server_invalid c ctx e w V) in H. discriminate.
Qed.

Lemma Number_add_exact (a b : Z) :
  Z.abs (a + b) <= 2 ^ 53 -> Number_add a b = a + b.
Proof.
  intros H. unfold Number_add.
  destruct (Z.leb_spec (Z.abs (a + b)) (2 ^ 53)) as [_|L]; [reflexivity | lia].
Qed.

(** The rounded branch of [Number_add] is binary64 addition; where both
    branches apply they agree, and past 2^53 a sum with 1 is the nearest
    double, ties to even. *)
Example Number_add_samples :
  Z_of_Number (SFadd 53 1024 (Number_of_Z 5) (Number_of_Z 1)) = 6
  /\ Z_of_Number (SFadd 53 1024 (Number_of_Z (2 ^ 53 - 1)) (Number_of_Z 1)) = 2 ^ 53
  /\ Number_add (2 ^ 53) 1 = 2 ^ 53
  /\ Number_add (2 ^ 53 + 2) 1 = 2 ^ 53 + 4
  /\ Number_add (- 2 ^ 53 - 2) 1 = - 2 ^ 53
  /\ Number_add (10 ^ 21) 1 = 10 ^ 21.
Proof. vm_compute. repeat split. Qed.

(** C4, as the code has it: a [createSlide] that succeeds without an order
    index in its input stores a slide whose [orderIndex] is 1 when the
    presentation had no slide, and otherwise the sum, as JavaScript numbers,
    of the greatest [orderIndex] among the slides the presentation had and
    1: one more than that greatest index whenever it is below 2^53 in
    magnitude. *)
Theorem default_order_is_max_plus_one
  (i : createSlide.input) ctx e w w' (sl : Slides.row) :
  createSlide.orderIndex i = None ->
  server (CreateSlide i) ctx e w = (inr (OutSlide (Some sl)), w') ->
  In sl (slides (db w'))
  /\ (map Slides.orderIndex (slides_of (createSlide.presentationId i) (db w)) = [] ->
      Slides.orderIndex sl = 1)
  /\ (map Slides.orderIndex (slides_of (createSlide.presentationId i) (db w)) <> [] ->
      exists m,
        In m (map Slides.orderIndex (slides_of (createSlide.presentationId i) (db w)))
        /\ (forall x,
              In x (map Slides.orderIndex (slides_of (createSlide.presentationId i) (db w))) ->
              x <= m)
        /\ Slides.orderIndex sl = Number_add m 1
        /\ (Z.abs m < 2 ^ 53 -> Slides.orderIndex sl = m + 1)).
Proof.
  intros O H. apply server_ok_inv in H. destruct H as [_ H]. simpl in H.
  apply createSlide_inv in H.
  destruct H as (u & q & _ & _ & _ & _ & Hout & _ & Hs).
  injection Hout as ->. split; [|split].
  - rewrite Hs. apply in_or_app. right. now left.
  - intros E. rewrite E. simpl. unfold createSlide.nextOrder. rewrite O. reflexivity.
  - intros NE. simpl. unfold createSlide.nextOrder. rewrite O.
    destruct (map Slides.orderIndex (slides_of (createSlide.presentationId i) (db w)))
      as [|x xs]; [contradiction|].
    exists (Math_max x xs). destruct (Math_max_fold xs x) as [Hin Hge].
    repeat split; auto. intros B. apply Number_add_exact. lia.
Qed.

Lemma default_order_is_max_plus_one_witness :
  exists m, In m [1; 2] /\ (forall x, In x [1; 2] -> x <= m)
            /\ Slides.orderIndex (createSlide.values (new_slide "p1" None) (at_ 40 "s3") [1; 2])
               = Number_add m 1
            /\ (Z.abs m < 2 ^ 53 ->
                Slides.orderIndex
                  (createSlide.values (new_slide "p1" None) (at_ 40 "s3") [1; 2])
                = m + 1).
Proof.
  refine (proj2 (proj2 (default_order_is_max_plus_one
            (new_slide "p1" None) (signed_in "alice") (at_ 40 "s3") two_slides
            (serve (by_ "alice" 40 "s3" (CreateSlide (new_slide "p1" None))) two_slides)
            (createSlide.values (new_slide "p1" None) (at_ 40 "s3") [1; 2])
            eq_refl eq_refl)) _).
  simpl. discriminate.
Defined.

(** C4, as stated, fails where one more is not a double: in a deck whose
    only slide was placed at 10^21, the greatest existing index is 10^21
    and the next slide created without an order index gets 10^21 again,
    not 10^21 + 1. *)
Lemma default_order_is_not_always_max_plus_one :
  ~ (forall (i : createSlide.input) ctx e w w' (sl : Slides.row),
       createSlide.orderIndex i = None ->
       server (CreateSlide i) ctx e w = (inr (OutSlide (Some sl)), w') ->
       (map Slides.orderIndex (slides_of (createSlide.presentationId i) (db w)) = [] ->
        Slides.orderIndex sl = 1)
       /\ (map Slides.orderIndex (slides_of (createSlide.presentationId i) (db w)) <> [] ->
           exists m,
             In m (map Slides.orderIndex (slides_of (createSlide.presentationId i) (db w)))
             /\ (forall x,
                   In x (map Slides.orderIndex
                           (slides_of (createSlide.presentationId i) (db w))) ->
                   x <= m)
             /\ Slides.orderIndex sl = m + 1)).
Proof.
  intros H.
  destruct (H (new_slide "p1" None) (signed_in "alice") (at_ 40 "s2") slide_at_1e21
              (serve (by_ "alice" 40 "s2" (CreateSlide (new_slide "p1" None))) slide_at_1e21)
              (createSlide.values (new_slide "p1" None) (at_ 40 "s2") [10 ^ 21])
              eq_refl eq_refl) as [_ K].
  destruct K as (m & Hm & _ & E); [vm_compute; discriminate|].
  vm_compute in Hm. destruct Hm as [<-|[]]. vm_compute in E. discriminate E.
Qed.

(** C2, as the code has it: a [createSlide] that succeeds without an order
    index, on a presentation with N slides, stores [orderIndex] 1 when
    N = 0; when N > 0 and the greatest existing [orderIndex] is below 2^53
    in magnitude, it stores that greatest index plus 1, which is N + 1
    exactly when the greatest existing index is N. *)
Theorem default_order_against_slide_count
  (i : createSlide.input) ctx e w w' (sl : Slides.row) :
  createSlide.orderIndex i = None ->
  server (CreateSlide i) ctx e w = (inr (OutSlide (Some sl)), w') ->
  (Z.of_nat (length (slides_of (createSlide.presentationId i) (db w))) = 0 ->
   Slides.orderIndex sl = 1)
  /\ (Z.of_nat (length (slides_of (createSlide.presentationId i) (db w))) > 0 ->
      exists m,
        In m (map Slides.orderIndex (slides_of (createSlide.presentationId i) (db w)))
        /\ (forall x,
              In x (map Slides.orderIndex (slides_of (createSlide.presentationId i) (db w))) ->
              x <= m)
        /\ (Z.abs m < 2 ^ 53 ->
            Slides.orderIndex sl = m + 1
            /\ (Slides.orderIndex sl
                = Z.of_nat (length (slides_of (createSlide.presentationId i) (db w))) + 1
                <-> m = Z.of_nat (length (slides_of (createSlide.presentationId i) (db w)))))).
Proof.
  intros O H. apply server_ok_inv in H. destruct H as [_ H]. simpl in H.
  apply createSlide_inv in H.
  destruct H as (u & q & _ & _ & _ & _ & Hout & _ & _).
  injection Hout as ->. simpl. unfold createSlide.nextOrder. rewrite O.
  destruct (slides_of (createSlide.presentationId i) (db w)) as [|s0 l]; simpl.
  - split; [reflexivity|]. intros Hn. exfalso. revert Hn. simpl. lia.
  - split; [intros Hn; exfalso; lia|]. intros _.
    exists (Math_max (Slides.orderIndex s0) (map Slides.orderIndex l)).
    destruct (Math_max_fold (map Slides.orderIndex l) (Slides.orderIndex s0))
      as [Hin Hge].
    split; [exact Hin|]. split; [exact Hge|]. intros B.
    rewrite Number_add_exact by lia. split; [reflexivity|]. split; intros; lia.
Qed.

Lemma default_order_against_slide_count_witness :
  exists m,
    In m [1; 2]
    /\ (forall x, In x [1; 2] -> x <= m)
    /\ (Z.abs m < 2 ^ 53 ->
        Slides.orderIndex (createSlide.values (new_slide "p1" None) (at_ 40 "s3") [1; 2])
        = m + 1
        /\ (Slides.orderIndex (createSlide.values (new_slide "p1" None) (at_ 40 "s3") [1; 2])
            = 2 + 1 <-> m = 2)).
Proof.
  refine (proj2 (default_order_against_slide_count
            (new_slide "p1" None) (signed_in "alice") (at_ 40 "s3") two_slides
            (serve (by_ "alice" 40 "s3" (CreateSlide (new_slide "p1" None))) two_slides)
            (createSlide.values (new_slide "p1" None) (at_ 40 "s3") [1; 2])
            eq_refl eq_refl) _).
  reflexivity.
Defined.

(** C2, as stated, fails: after a slide was created at place 5 in an empty
    deck, N is 1 and the next slide created without an order index gets
    6, not 2. *)
Lemma default_order_is_not_count_plus_one :
  ~ (forall (i : createSlide.input) ctx e w w' (sl : Slides.row),
       createSlide.orderIndex i = None ->
       server (CreateSlide i) ctx e w = (inr (OutSlide (Some sl)), w') ->
       (Z.of_nat (length (slides_of (createSlide.presentationId i) (db w))) > 0 ->
        Slides.orderIndex sl
        = Z.of_nat (length (slides_of (createSlide.presentationId i) (db w))) + 1)
       /\ (Z.of_nat (length (slides_of (createSlide.presentationId i) (db w))) = 0 ->
           Slides.orderIndex sl = 1)).
Proof.
  intros H.
  destruct (H (new_slide "p1" None) (signed_in "alice") (at_ 40 "s2") slide_at_five
              (serve (by_ "alice" 40 "s2" (CreateSlide (new_slide "p1" None))) slide_at_five)
              (createSlide.values (new_slide "p1" None) (at_ 40 "s2") [5])
              eq_refl eq_refl) as [K _].
  assert (K' := K ltac:(reflexivity)). vm_compute in K'. discriminate K'.
Qed.

Lemma in_update_rows {R} (set_ : R -> R) (where_ : R -> bool) (l : list R) (r' : R) :
  In r' (update_rows set_ where_ l) ->
  exists r, In r l /\ r' = (if where_ r then set_ r else r).
Proof.
  unfold update_rows. intros H. apply in_map_iff in H.
  destruct H as (r & E & Hr). exists r. split; [exact Hr | now symmetry].
Qed.

Lemma createSlide_parent_after (i : createSlide.input) ctx e w w' out :
  createSlide.handler i ctx e w = (inr out, w') ->
  (exists p', In p' (presentations (db w'))
              /\ Presentations.id p' = createSlide.presentationId i)
  /\ forall p', In p' (presentations (db w')) ->
       Presentations.id p' = createSlide.presentationId i ->
       Presentations.slideCount p'
       = Some (Z.of_nat (length (slides_of (createSlide.presentationId i) (db w))) + 1)
       /\ Presentations.updatedAt p' = now e.
Proof.
  intros H. apply createSlide_inv in H.
  destruct H as (u & q & _ & Hq & Hid & _ & _ & Hp & _). rewrite Hp. split.
  - exists (createSlide.count_set
              (length (slides_of (createSlide.presentationId i) (db w))) (now e) q).
    split; [|exact Hid].
    unfold update_rows. apply in_map_iff. exists q. split; [|exact Hq].
    rewrite Hid, String.eqb_refl. reflexivity.
  - intros p' Hin Hid'. apply in_update_rows in Hin. destruct Hin as (r & Hr & ->).
    destruct (String.eqb_spec (Presentations.id r) (createSlide.presentationId i))
      as [E|E].
    + simpl. split; reflexivity.
    + contradiction.
Qed.

(** C3, as the code has it: after a successful [createSlide] the named
    presentation is still there, and its [slideCount] is the number of
    slides that referred to it before the call, plus 1, with [updatedAt]
    set to the time of the call.  That is the stored count plus 1 whenever
    the stored count was that number of slides. *)
Theorem createSlide_recounts_parent (i : createSlide.input) ctx e w w' out :
  server (CreateSlide i) ctx e w = (inr out, w') ->
  (exists p', In p' (presentations (db w'))
              /\ Presentations.id p' = createSlide.presentationId i)
  /\ (forall p', In p' (presentations (db w')) ->
        Presentations.id p' = createSlide.presentationId i ->
        Presentations.slideCount p'
        = Some (Z.of_nat (length (slides_of (createSlide.presentationId i) (db w))) + 1)
        /\ Presentations.updatedAt p' = now e)
  /\ (forall p p' n, In p (presentations (db w)) ->
        Presentations.id p = createSlide.presentationId i ->
        Presentations.slideCount p = Some n ->
        n = Z.of_nat (length (slides_of (createSlide.presentationId i) (db w))) ->
        In p' (presentations (db w')) ->
        Presentations.id p' = createSlide.presentationId i ->
        Presentations.slideCount p' = Some (n + 1)).
Proof.
  intros H. apply server_ok_inv in H. destruct H as [_ H]. simpl in H.
  destruct (createSlide_parent_after i ctx e w w' out H) as [Hex Hall].
  split; [exact Hex|]. split; [exact Hall|].
  intros p p' n _ _ _ -> Hin Hid. exact (proj1 (Hall p' Hin Hid)).
Qed.

Lemma createSlide_recounts_parent_witness :
  Presentations.slideCount (deck "p1" "alice" 3 10 40) = Some (2 + 1)
  /\ Presentations.updatedAt (deck "p1" "alice" 3 10 40) = 40.
Proof.
  refine (proj1 (proj2 (createSlide_recounts_parent
            (new_slide "p1" None) (signed_in "alice") (at_ 40 "s3") two_slides
            (serve (by_ "alice" 40 "s3" (CreateSlide (new_slide "p1" None))) two_slides)
            (OutSlide (Some (createSlide.values (new_slide "p1" None) (at_ 40 "s3") [1; 2])))
            eq_refl)) (deck "p1" "alice" 3 10 40) _ eq_refl).
  left. reflexivity.
Defined.

(** C3, as stated, fails: once a slide has been created and deleted again,
    the deck stores [slideCount] 1 and has no slide; the next [createSlide]
    stores 1 again, not 2. *)
Lemma createSlide_does_not_increment_stored_count :
  ~ (forall (i : createSlide.input) ctx e w w' out p p' n,
       server (CreateSlide i) ctx e w = (inr out, w') ->
       In p (presentations (db w)) ->
       Presentations.id p = createSlide.presentationId i ->
       Presentations.slideCount p = Some n ->
       In p' (presentations (db w')) ->
       Presentations.id p' = createSlide.presentationId i ->
       Presentations.slideCount p' = Some (n + 1)
       /\ Presentations.updatedAt p' = now e).
Proof.
  intros H.
  destruct (H (new_slide "p1" None) (signed_in "alice") (at_ 40 "s2") slide_deleted
              (serve (by_ "alice" 40 "s2" (CreateSlide (new_slide "p1" None))) slide_deleted)
              (OutSlide (Some (createSlide.values (new_slide "p1" None) (at_ 40 "s2") [])))
              (deck "p1" "alice" 1 10 20) (deck "p1" "alice" 1 10 40) 1
              eq_refl (or_introl eq_refl) eq_refl eq_refl (or_introl eq_refl) eq_refl)
    as [K _].
  discriminate K.
Qed.

(** C10: a successful [deleteSlide] returns the [Presentations] table as it
    was, row for row, so the parent keeps its [slideCount], its [updatedAt]
    and every other field; a successful [createSlide] instead leaves the
    parent with [slideCount] set to the number of slides it had plus 1 and
    [updatedAt] set to the time of the call, the other presentations being
    kept. *)
Theorem deleteSlide_leaves_parent_untouched :
  (forall (i : deleteSlide.input) ctx e w w' out,
      server (DeleteSlide i) ctx e w = (inr out, w') ->
      presentations (db w') = presentations (db w))
  /\ (forall (i : createSlide.input) ctx e w w' out,
      server (CreateSlide i) ctx e w = (inr out, w') ->
      (exists p', In p' (presentations (db w'))
                  /\ Presentations.id p' = createSlide.presentationId i)
      /\ (forall p', In p' (presentations (db w')) ->
            Presentations.id p' = createSlide.presentationId i ->
            Presentations.slideCount p'
            = Some (Z.of_nat (length (slides_of (createSlide.presentationId i) (db w))) + 1)
            /\ Presentations.updatedAt p' = now e)
      /\ (forall p, In p (presentations (db w)) ->
            Presentations.id p <> createSlide.presentationId i ->
            In p (presentations (db w')))).
Proof.
  split.
  - intros i ctx e w w' out H. apply server_ok_inv in H. destruct H as [_ H].
    simpl in H. revert H. unfold deleteSlide.handler, bind, requireUser.
    destruct (locals_user ctx) as [u|]; [|discriminate]. unfold ret at 1.
    destruct (getOwnedPresentation _ _ w) as [[f|q] w1] eqn:G; [discriminate|].
    apply getOwnedPresentation_inv in G. destruct G as (-> & _).
    unfold delete_Slides. simpl.
    destruct (length _ =? 0)%nat; [discriminate|].
    unfold ret. intros H. inversion H. reflexivity.
  - intros i ctx e w w' out H. apply server_ok_inv in H. destruct H as [_ H].
    simpl in H.
    destruct (createSlide_parent_after i ctx e w w' out H) as [Hex Hall].
    split; [exact Hex|]. split; [exact Hall|].
    apply createSlide_inv in H.
    destruct H as (u & q & _ & _ & _ & _ & _ & Hp & _). rewrite Hp.
    intros p Hin Hne.
    pose proof (in_map (fun r => if (Presentations.id r =? createSlide.presentationId i)%string
                                 then createSlide.count_set
                                        (length (slides_of (createSlide.presentationId i)
                                                   (db w))) (now e) r
                                 else r) _ p Hin) as K.
    cbv beta in K. rewrite (proj2 (String.eqb_neq _ _) Hne) in K. exact K.
Qed.

Lemma deleteSlide_leaves_parent_untouched_witness :
  presentations (db (serve (by_ "alice" 40 "" (DeleteSlide (slide_ref "s1" "p1"))) two_slides))
  = presentations (db two_slides)
  /\ Presentations.slideCount (deck "p1" "alice" 3 10 40) = Some (2 + 1)
  /\ Presentations.updatedAt (deck "p1" "alice" 3 10 40) = 40.
Proof.
  split.
  - apply (proj1 deleteSlide_leaves_parent_untouched
             (slide_ref "s1" "p1") (signed_in "alice") (at_ 40 "") two_slides
             (serve (by_ "alice" 40 "" (DeleteSlide (slide_ref "s1" "p1"))) two_slides)
             OutNone).
    reflexivity.
  - refine (proj1 (proj2 (proj2 deleteSlide_leaves_parent_untouched
              (new_slide "p1" None) (signed_in "alice") (at_ 40 "s3") two_slides
              (serve (by_ "alice" 40 "s3" (CreateSlide (new_slide "p1" None))) two_slides)
              (OutSlide (Some (createSlide.values (new_slide "p1" None) (at_ 40 "s3")
                                 [1; 2])))
              eq_refl)) (deck "p1" "alice" 3 10 40) _ eq_refl).
    left. reflexivity.
Defined.

(** ** Updates in place *)

Lemma update_rows_none {R} (set_ : R -> R) (where_ : R -> bool) (l : list R) :
  (forall r, In r l -> where_ r = false) -> update_rows set_ where_ l = l.
Proof.
  unfold update_rows. induction l as [|a l IH]; simpl; intros H; [reflexivity|].
  rewrite (H a (or_introl eq_refl)). f_equal. apply IH. intros r Hr. apply H. now right.
Qed.

(** Under a primary key, a filter on the key meets one row. *)
Lemma update_rows_unique {R} (key : R -> string) (set_ : R -> R) (k : string)
  (l : list R) (q : R) :
  NoDup (map key l) -> In q l -> key q = k ->
  exists l1 l2,
    l = l1 ++ q :: l2
    /\ update_rows set_ (fun r => key r =? k)%string l = l1 ++ set_ q :: l2
    /\ filter (fun r => key r =? k)%string l = [q].
Proof.
  intros ND Hq Hk. destruct (in_split q l Hq) as (l1 & l2 & ->).
  exists l1, l2. split; [reflexivity|].
  rewrite map_app in ND. simpl in ND. apply NoDup_remove_2 in ND.
  assert (H1 : forall r, In r l1 -> (key r =? k)%string = false).
  { intros r Hr. apply String.eqb_neq. intros E. apply ND. apply in_or_app. left.
    rewrite Hk, <- E. now apply in_map. }
  assert (H2 : forall r, In r l2 -> (key r =? k)%string = false).
  { intros r Hr. apply String.eqb_neq. intros E. apply ND. apply in_or_app. right.
    rewrite Hk, <- E. now apply in_map. }
  split.
  - unfold update_rows. rewrite map_app. simpl.
    fold (update_rows set_ (fun r => key r =? k)%string l1).
    fold (update_rows set_ (fun r => key r =? k)%string l2).
    rewrite (update_rows_none _ _ l1 H1), (update_rows_none _ _ l2 H2).
    rewrite Hk, String.eqb_refl. reflexivity.
  - rewrite filter_app. simpl. rewrite (filter_none _ l1 H1), (filter_none _ l2 H2).
    rewrite Hk, String.eqb_refl. reflexivity.
Qed.

Lemma updatePresentation_inv (i : updatePresentation.input) ctx e w w' out :
  updatePresentation.handler i ctx e w = (inr out, w') ->
  exists q,
    In q (presentations (db w))
    /\ Presentations.id q = updatePresentation.id i
    /\ out = OutPresentation
               (hd_error (map (updatePresentation.set_ i (now e))
                  (filter (fun p => Presentations.id p =? updatePresentation.id i)%string
                     (presentations (db w)))))
    /\ presentations (db w')
       = update_rows (updatePresentation.set_ i (now e))
           (fun p => Presentations.id p =? updatePresentation.id i)%string
           (presentations (db w))
    /\ slides (db w') = slides (db w).
Proof.
  unfold updatePresentation.handler, bind, requireUser.
  destruct (locals_user ctx) as [u|]; [|discriminate]. unfold ret at 1.
  destruct (getOwnedPresentation _ _ w) as [[f|q] w1] eqn:G; [discriminate|].
  apply getOwnedPresentation_inv in G. destruct G as (-> & Hq & Hid & _).
  unfold update_Presentations, ret. simpl. intros H. inversion H; subst; clear H.
  exists q. simpl. repeat split; assumption || reflexivity.
Qed.

Lemma updateSlide_inv (i : updateSlide.input) ctx e w w' out :
  updateSlide.handler i ctx e w = (inr out, w') ->
  exists s,
    In s (slides (db w))
    /\ Slides.id s = updateSlide.id i
    /\ Slides.presentationId s = updateSlide.presentationId i
    /\ out = OutSlide
               (hd_error (map (updateSlide.set_ i (now e))
                  (filter (fun r => Slides.id r =? updateSlide.id i)%string
                     (slides (db w)))))
    /\ slides (db w')
       = update_rows (updateSlide.set_ i (now e))
           (fun r => Slides.id r =? updateSlide.id i)%string (slides (db w))
    /\ presentations (db w') = presentations (db w).
Proof.
  unfold updateSlide.handler, bind, requireUser.
  destruct (locals_user ctx) as [u|]; [|discriminate]. unfold ret at 1.
  destruct (getOwnedPresentation _ _ w) as [[f|q] w1] eqn:G; [discriminate|].
  apply getOwnedPresentation_inv in G. destruct G as (-> & _).
  unfold select_Slides. rewrite !db_touch.
  destruct (forallb readable (filter _ (slides (db w)))); [|discriminate].
  destruct (filter _ (slides (db w))) as [|s l] eqn:F; [discriminate|].
  assert (Hs : In s (filter (slide_in (updateSlide.id i) (updateSlide.presentationId i))
                            (slides (db w)))) by (rewrite F; now left).
  apply filter_In in Hs. destruct Hs as [Hs Hb]. unfold slide_in in Hb.
  apply andb_true_iff in Hb. destruct Hb as [B1 B2]. apply String.eqb_eq in B1, B2.
  unfold update_Slides. rewrite !db_touch.
  destruct (forallb readable (map _ _)); [|discriminate].
  unfold ret. intros H. inversion H; subst; clear H.
  exists s. simpl. repeat split; assumption || reflexivity.
Qed.

(** C7: a successful [updatePresentation] (resp. [updateSlide]) replaces one
    row of its table, in place, and leaves every other row of that table
    and the whole other table as they were.  In the new row each column the
    input supplied holds the supplied value, each column it did not supply
    holds what was stored, [updatedAt] is the time of the call, and the
    columns that cannot be supplied are kept.  The store is taken to meet
    the primary key of the table concerned. *)
Theorem update_changes_only_supplied_fields :
  (forall (i : updatePresentation.input) ctx e w w' out,
      NoDup (map Presentations.id (presentations (db w))) ->
      server (UpdatePresentation i) ctx e w = (inr out, w') ->
      exists l1 p l2 p',
        presentations (db w) = l1 ++ p :: l2
        /\ presentations (db w') = l1 ++ p' :: l2
        /\ slides (db w') = slides (db w)
        /\ out = OutPresentation (Some p')
        /\ Presentations.id p = updatePresentation.id i
        /\ Presentations.id p' = Presentations.id p
        /\ Presentations.userId p' = Presentations.userId p
        /\ Presentations.createdAt p' = Presentations.createdAt p
        /\ Presentations.updatedAt p' = now e
        /\ Presentations.title p'
           = match updatePresentation.title i with
             | Some v => v | None => Presentations.title p end
        /\ Presentations.description p'
           = match updatePresentation.description i with
             | Some v => Some v | None => Presentations.description p end
        /\ Presentations.theme p'
           = match updatePresentation.theme i with
             | Some v => Some v | None => Presentations.theme p end
        /\ Presentations.aspectRatio p'
           = match updatePresentation.aspectRatio i with
             | Some v => Some v | None => Presentations.aspectRatio p end
        /\ Presentations.slideCount p'
           = match updatePresentation.slideCount i with
             | Some v => Some v | None => Presentations.slideCount p end)
  /\ (forall (i : updateSlide.input) ctx e w w' out,
      NoDup (map Slides.id (slides (db w))) ->
      server (UpdateSlide i) ctx e w = (inr out, w') ->
      exists l1 s l2 s',
        slides (db w) = l1 ++ s :: l2
        /\ slides (db w') = l1 ++ s' :: l2
        /\ presentations (db w') = presentations (db w)
        /\ out = OutSlide (Some s')
        /\ Slides.id s = updateSlide.id i
        /\ Slides.id s' = Slides.id s
        /\ Slides.presentationId s' = Slides.presentationId s
        /\ Slides.createdAt s' = Slides.createdAt s
        /\ Slides.updatedAt s' = now e
        /\ Slides.orderIndex s'
           = match updateSlide.orderIndex i with
             | Some v => v | None => Slides.orderIndex s end
        /\ Slides.layoutType s'
           = match updateSlide.layoutType i with
             | Some v => Some v | None => Slides.layoutType s end
        /\ Slides.title s'
           = match updateSlide.title i with
             | Some v => Some v | None => Slides.title s end
        /\ Slides.content s'
           = match updateSlide.content i with
             | Some v => Some v | None => Slides.content s end
        /\ Slides.notes s'
           = match updateSlide.notes i with
             | Some v => Some v | None => Slides.notes s end
        /\ Slides.rawData s'
           = match updateSlide.rawData i with
             | Some v => Some v | None => Slides.rawData s end).
Proof.
  split.
  - intros i ctx e w w' out ND H. apply server_ok_inv in H. destruct H as [_ H].
    simpl in H. apply updatePresentation_inv in H.
    destruct H as (q & Hq & Hid & Hout & Hp & Hs).
    destruct (update_rows_unique Presentations.id (updatePresentation.set_ i (now e))
                (updatePresentation.id i) _ q ND Hq Hid) as (l1 & l2 & E1 & E2 & E3).
    exists l1, q, l2, (updatePresentation.set_ i (now e) q).
    rewrite Hp, Hout, E2, E3. simpl. repeat split; auto.
  - intros i ctx e w w' out ND H. apply server_ok_inv in H. destruct H as [_ H].
    simpl in H. apply updateSlide_inv in H.
    destruct H as (s & Hs & Hid & _ & Hout & Hsl & Hp).
    destruct (update_rows_unique Slides.id (updateSlide.set_ i (now e))
                (updateSlide.id i) _ s ND Hs Hid) as (l1 & l2 & E1 & E2 & E3).
    exists l1, s, l2, (updateSlide.set_ i (now e) s).
    rewrite Hsl, Hout, E2, E3. simpl. repeat split; auto.
Qed.

Lemma update_changes_only_supplied_fields_witness :
  slides (db (serve (by_ "alice" 40 ""
                       (UpdatePresentation (deck_patch "p1" (Some "Q2 Review") None)))
                    two_slides))
  = slides (db two_slides)
  /\ presentations (db (serve (by_ "alice" 40 ""
                                 (UpdateSlide (slide_patch "s1" "p1" (Some "Intro"))))
                              two_slides))
     = presentations (db two_slides).
Proof.
  split.
  - destruct (proj1 update_changes_only_supplied_fields
                (deck_patch "p1" (Some "Q2 Review") None) (signed_in "alice") (at_ 40 "")
                two_slides
                (serve (by_ "alice" 40 ""
                          (UpdatePresentation (deck_patch "p1" (Some "Q2 Review") None)))
                       two_slides)
                (OutPresentation
                   (Some (updatePresentation.set_ (deck_patch "p1" (Some "Q2 Review") None)
                            40 (deck "p1" "alice" 2 10 30)))))
      as (l1 & p0 & l2 & p' & _ & _ & H & _).
    + distinct_keys.
    + reflexivity.
    + exact H.
  - destruct (proj2 update_changes_only_supplied_fields
                (slide_patch "s1" "p1" (Some "Intro")) (signed_in "alice") (at_ 40 "")
                two_slides
                (serve (by_ "alice" 40 ""
                          (UpdateSlide (slide_patch "s1" "p1" (Some "Intro"))))
                       two_slides)
                (OutSlide
                   (Some (updateSlide.set_ (slide_patch "s1" "p1" (Some "Intro")) 40
                            (createSlide.values (new_slide "p1" None) (at_ 20 "s1") [])))))
      as (l1 & s0 & l2 & s' & _ & _ & H & _).
    + distinct_keys.
    + reflexivity.
    + exact H.
Defined.

(** ** What each handler does to the store, whatever it answers *)

Lemma existsb_key_false {R} (key : R -> string) (k : string) (l : list R) :
  existsb (fun r => key r =? k)%string l = false ->
  forall r, In r l -> key r <> k.
Proof.
  intros H r Hr E.
  assert (T : existsb (fun r => key r =? k)%string l = true).
  { apply existsb_exists. exists r. split; [exact Hr|]. now apply String.eqb_eq. }
  rewrite H in T. discriminate.
Qed.

Lemma createPresentation_db (i : createPresentation.input) ctx e w :
  db (snd (createPresentation.handler i ctx e w)) = db w
  \/ exists row,
       Presentations.id row = randomUUID e
       /\ Presentations.slideCount row = Some 0
       /\ (forall p, In p (presentations (db w)) -> Presentations.id p <> randomUUID e)
       /\ presentations (db (snd (createPresentation.handler i ctx e w)))
          = presentations (db w) ++ [row]
       /\ slides (db (snd (createPresentation.handler i ctx e w))) = slides (db w).
Proof.
  destruct (createPresentation.handler i ctx e w) as [r w'] eqn:H. simpl. revert H.
  unfold createPresentation.handler, bind, requireUser.
  destruct (locals_user ctx) as [u|]; [|intros H; inversion H; left; reflexivity].
  unfold ret at 1. unfold insert_Presentations. simpl.
  destruct (existsb _ (presentations (db w))) eqn:X;
    [intros H; inversion H; left; reflexivity|].
  unfold ret. intros H. inversion H; subst; clear H. right. simpl.
  eexists. refine (conj _ (conj _ (conj _ (conj _ _)))).
  4: reflexivity.
  1-2: reflexivity.
  - exact (existsb_key_false Presentations.id _ _ X).
  - reflexivity.
Qed.

Lemma getOwnedPresentation_db (pid uid : string) (w : World) :
  db (snd (getOwnedPresentation pid uid w)) = db w.
Proof.
  unfold getOwnedPresentation, bind, select_Presentations.
  destruct (filter _ _); reflexivity.
Qed.

Lemma updatePresentation_db (i : updatePresentation.input) ctx e w :
  db (snd (updatePresentation.handler i ctx e w)) = db w
  \/ (presentations (db (snd (updatePresentation.handler i ctx e w)))
      = update_rows (updatePresentation.set_ i (now e))
          (fun p => Presentations.id p =? updatePresentation.id i)%string
          (presentations (db w))
      /\ slides (db (snd (updatePresentation.handler i ctx e w))) = slides (db w)).
Proof.
  destruct (updatePresentation.handler i ctx e w) as [r w'] eqn:H. simpl. revert H.
  unfold updatePresentation.handler, bind, requireUser.
  destruct (locals_user ctx) as [u|]; [|intros H; inversion H; left; reflexivity].
  unfold ret at 1.
  pose proof (getOwnedPresentation_db (updatePresentation.id i) (user_id u) w) as D.
  destruct (getOwnedPresentation _ _ w) as [[f|q] w1]; simpl in D;
    [intros H; inversion H; subst; left; exact D|].
  unfold update_Presentations, ret. intros H. inversion H; subst; clear H.
  right. simpl. rewrite D. split; reflexivity.
Qed.

Lemma createSlide_db (i : createSlide.input) ctx e w :
  db (snd (createSlide.handler i ctx e w)) = db w
  \/ (exists q, In q (presentations (db w))
                /\ Presentations.id q = createSlide.presentationId i)
     /\ (forall s, In s (slides (db w)) -> Slides.id s <> randomUUID e)
     /\ slides (db (snd (createSlide.handler i ctx e w)))
        = slides (db w)
          ++ [createSlide.values i e
                (map Slides.orderIndex (slides_of (createSlide.presentationId i) (db w)))]
     /\ (presentations (db (snd (createSlide.handler i ctx e w)))
         = update_rows
             (createSlide.count_set
                (length (slides_of (createSlide.presentationId i) (db w))) (now e))
             (fun p => Presentations.id p =? createSlide.presentationId i)%string
             (presentations (db w))
         \/ (presentations (db (snd (createSlide.handler i ctx e w)))
             = presentations (db w)
             /\ exists t, fst (createSlide.handler i ctx e w) = inl (DriverError t))).
Proof.
  destruct (createSlide.handler i ctx e w) as [r w'] eqn:H. simpl. revert H.
  unfold createSlide.handler, bind, requireUser.
  destruct (locals_user ctx) as [u|]; [|intros H; inversion H; left; reflexivity].
  unfold ret at 1.
  pose proof (getOwnedPresentation_db (createSlide.presentationId i) (user_id u) w) as D.
  destruct (getOwnedPresentation _ _ w) as [[f'|q] w1] eqn:G; simpl in D;
    [intros H; inversion H; subst; left; exact D|].
  apply getOwnedPresentation_inv in G. destruct G as (-> & Hq & Hid & _).
  unfold select_Slides, insert_Slides. rewrite !db_touch.
  fold (slides_of (createSlide.presentationId i) (db w)).
  destruct (forallb readable (slides_of (createSlide.presentationId i) (db w)));
    [|intros H; inversion H; left; reflexivity].
  rewrite !db_touch.
  destruct (existsb _ (slides (db w))) eqn:X;
    [intros H; inversion H; left; reflexivity|].
  pose proof (existsb_key_false Slides.id _ _ X) as Hfresh.
  destruct (readable _).
  - unfold update_Presentations, ret. intros H. inversion H; subst; clear H.
    right. simpl. rewrite length_map.
    split; [exists q; auto|]. split; [exact Hfresh|]. split; [reflexivity|].
    left. reflexivity.
  - intros H. inversion H; subst; clear H. right. simpl.
    split; [exists q; auto|]. split; [exact Hfresh|]. split; [reflexivity|].
    right. split; [reflexivity|]. eexists. reflexivity.
Qed.

Lemma updateSlide_db (i : updateSlide.input) ctx e w :
  db (snd (updateSlide.handler i ctx e w)) = db w
  \/ (slides (db (snd (updateSlide.handler i ctx e w)))
      = update_rows (updateSlide.set_ i (now e))
          (fun r => Slides.id r =? updateSlide.id i)%string (slides (db w))
      /\ presentations (db (snd (updateSlide.handler i ctx e w)))
         = presentations (db w)
      /\ exists s0, In s0 (slides (db w))
                    /\ Slides.id s0 = updateSlide.id i
                    /\ Slides.presentationId s0 = updateSlide.presentationId i).
Proof.
  destruct (updateSlide.handler i ctx e w) as [r w'] eqn:H. simpl. revert H.
  unfold updateSlide.handler, bind, requireUser.
  destruct (locals_user ctx) as [u|]; [|intros H; inversion H; left; reflexivity].
  unfold ret at 1.
  pose proof (getOwnedPresentation_db (updateSlide.presentationId i) (user_id u) w) as D.
  destruct (getOwnedPresentation _ _ w) as [[f|q] w1]; simpl in D;
    [intros H; inversion H; subst; left; exact D|].
  unfold select_Slides. rewrite ?db_touch, ?D.
  destruct (forallb readable (filter _ (slides (db w))));
    [|intros H; inversion H; subst; left; exact D].
  destruct (filter _ (slides (db w))) as [|s0 l] eqn:F;
    [intros H; inversion H; subst; left; exact D|].
  assert (Hs : In s0 (filter (slide_in (updateSlide.id i) (updateSlide.presentationId i))
                             (slides (db w)))) by (rewrite F; now left).
  apply filter_In in Hs. destruct Hs as [Hs Hb]. unfold slide_in in Hb.
  apply andb_true_iff in Hb. destruct Hb as [B1 B2]. apply String.eqb_eq in B1, B2.
  unfold update_Slides. rewrite ?db_touch, ?D.
  destruct (forallb readable (map _ _)); unfold ret;
    intros H; inversion H; subst; clear H;
    right; simpl; (split; [reflexivity|]); (split; [reflexivity|]);
    exists s0; auto.
Qed.

Lemma deleteSlide_db (i : deleteSlide.input) ctx e w :
  db (snd (deleteSlide.handler i ctx e w)) = db w
  \/ (slides (db (snd (deleteSlide.handler i ctx e w)))
      = filter (fun s => negb (slide_in (deleteSlide.id i) (deleteSlide.presentationId i) s))
          (slides (db w))
      /\ presentations (db (snd (deleteSlide.handler i ctx e w)))
         = presentations (db w)).
Proof.
  destruct (deleteSlide.handler i ctx e w) as [r w'] eqn:H. simpl. revert H.
  unfold deleteSlide.handler, bind, requireUser.
  destruct (locals_user ctx) as [u|]; [|intros H; inversion H; left; reflexivity].
  unfold ret at 1.
  pose proof (getOwnedPresentation_db (deleteSlide.presentationId i) (user_id u) w) as D.
  destruct (getOwnedPresentation _ _ w) as [[f|q] w1]; simpl in D;
    [intros H; inversion H; subst; left; exact D|].
  unfold delete_Slides. simpl.
  destruct (length _ =? 0)%nat; unfold throw, ret; intros H; inversion H; subst; clear H;
    right; simpl; rewrite D; split; reflexivity.
Qed.

Lemma listPresentations_db ctx e w :
  db (snd (listPresentations.handler ctx e w)) = db w.
Proof.
  unfold listPresentations.handler, bind, requireUser.
  destruct (locals_user ctx) as [u|]; reflexivity.
Qed.

Lemma listSlides_db (i : listSlides.input) ctx e w :
  db (snd (listSlides.handler i ctx e w)) = db w.
Proof.
  destruct (listSlides.handler i ctx e w) as [r w'] eqn:H. simpl. revert H.
  unfold listSlides.handler, bind, requireUser.
  destruct (locals_user ctx) as [u|]; [|intros H; inversion H; reflexivity].
  unfold ret at 1.
  pose proof (getOwnedPresentation_db (listSlides.presentationId i) (user_id u) w) as D.
  destruct (getOwnedPresentation _ _ w) as [[f|q] w1]; simpl in D;
    [intros H; inversion H; subst; exact D|].
  unfold select_Slides, ret.
  destruct (forallb readable _); intros H; inversion H; subst; exact D.
Qed.

Lemma serve_cases (r : Request) (w : World) :
  serve r w = w \/ serve r w = snd (handler (call r) (context r) (env r) w).
Proof.
  unfold serve. destruct (schema (call r)) eqn:V.
  - right. rewrite server_valid; auto.
  - left. rewrite server_invalid; auto.
Qed.

(** ** The schema constraints are kept by every call *)

Lemma in_update_rows_intro {R} (set_ : R -> R) (where_ : R -> bool) (l : list R) (r : R) :
  In r l -> In (if where_ r then set_ r else r) (update_rows set_ where_ l).
Proof.
  intros H. unfold update_rows.
  exact (in_map (fun r => if where_ r then set_ r else r) l r H).
Qed.

Lemma map_update_rows {R K} (key : R -> K) (set_ : R -> R) (where_ : R -> bool)
  (l : list R) :
  (forall r, key (set_ r) = key r) ->
  map key (update_rows set_ where_ l) = map key l.
Proof.
  intros H. unfold update_rows. rewrite map_map. apply map_ext.
  intros r. destruct (where_ r); [apply H | reflexivity].
Qed.

Lemma filter_update_rows_length {R} (f : R -> bool) (set_ : R -> R) (where_ : R -> bool)
  (l : list R) :
  (forall r, f (set_ r) = f r) ->
  length (filter f (update_rows set_ where_ l)) = length (filter f l).
Proof.
  intros H. unfold update_rows. induction l as [|a l IH]; simpl; [reflexivity|].
  assert (E : f (if where_ a then set_ a else a) = f a)
    by (destruct (where_ a); [apply H | reflexivity]).
  rewrite E. destruct (f a); simpl; rewrite IH; reflexivity.
Qed.

Lemma NoDup_map_filter {R K} (key : R -> K) (f : R -> bool) (l : list R) :
  NoDup (map key l) -> NoDup (map key (filter f l)).
Proof.
  induction l as [|a l IH]; simpl; intros H; [constructor|].
  inversion H as [|k ks Hk Hks]; subst. destruct (f a); simpl; [|auto].
  constructor; [|auto]. intros Hin. apply Hk.
  apply in_map_iff in Hin. destruct Hin as (r & E & Hr).
  apply filter_In in Hr. rewrite <- E. apply in_map. apply Hr.
Qed.

Lemma NoDup_map_snoc {R} (key : R -> string) (l : list R) (x : R) :
  NoDup (map key l) -> (forall r, In r l -> key r <> key x) ->
  NoDup (map key (l ++ [x])).
Proof.
  intros ND H. rewrite map_app. apply NoDup_app; [exact ND| |].
  - simpl. constructor; [intros []|constructor].
  - intros k Hk [E|[]]. apply in_map_iff in Hk. destruct Hk as (r & Er & Hr).
    apply (H r Hr). congruence.
Qed.

Lemma handler_keeps_keys (c : Call) ctx e w :
  keys_ok (db w) -> keys_ok (db (snd (handler c ctx e w))).
Proof.
  intros [KP KS]. destruct c; simpl.
  - destruct (createPresentation_db i ctx e w)
      as [->|(row & Hid & _ & Hfresh & Hp & Hs)]; [split; assumption|].
    unfold keys_ok. rewrite Hp, Hs. split; [|exact KS].
    apply NoDup_map_snoc; [exact KP|]. intros r Hr. rewrite Hid. now apply Hfresh.
  - destruct (updatePresentation_db i ctx e w) as [->|[Hp Hs]]; [split; assumption|].
    unfold keys_ok. rewrite Hp, Hs. split; [|exact KS].
    rewrite map_update_rows; [exact KP | reflexivity].
  - rewrite listPresentations_db. split; assumption.
  - destruct (createSlide_db i ctx e w)
      as [->|(_ & Hfresh & Hs & [Hp|[Hp _]])]; [split; assumption| |];
      unfold keys_ok; rewrite Hp, Hs;
      (split; [|apply NoDup_map_snoc; [exact KS|]; intros r Hr; now apply Hfresh]).
    + rewrite map_update_rows; [exact KP | reflexivity].
    + exact KP.
  - destruct (updateSlide_db i ctx e w) as [->|(Hs & Hp & _)]; [split; assumption|].
    unfold keys_ok. rewrite Hp, Hs. split; [exact KP|].
    rewrite map_update_rows; [exact KS | reflexivity].
  - destruct (deleteSlide_db i ctx e w) as [->|[Hs Hp]]; [split; assumption|].
    unfold keys_ok. rewrite Hp, Hs. split; [exact KP|].
    apply NoDup_map_filter. exact KS.
  - rewrite listSlides_db. split; assumption.
Qed.

Lemma handler_keeps_refs (c : Call) ctx e w :
  refs_ok (db w) -> refs_ok (db (snd (handler c ctx e w))).
Proof.
  intros RF. destruct c; simpl.
  - destruct (createPresentation_db i ctx e w)
      as [->|(row & _ & _ & _ & Hp & Hs)]; [exact RF|].
    unfold refs_ok. rewrite Hp, Hs.
    intros s Hin. destruct (RF s Hin) as (p & Hpin & E).
    exists p. split; [apply in_or_app; now left | exact E].
  - destruct (updatePresentation_db i ctx e w) as [->|[Hp Hs]]; [exact RF|].
    unfold refs_ok. rewrite Hp, Hs.
    intros s Hin. destruct (RF s Hin) as (p & Hpin & E).
    eexists. split; [apply in_update_rows_intro; exact Hpin|].
    rewrite <- E. destruct (_ =? _)%string; reflexivity.
  - rewrite listPresentations_db. exact RF.
  - destruct (createSlide_db i ctx e w)
      as [->|((q & Hq & Hid) & _ & Hs & [Hp|[Hp _]])]; [exact RF| |];
      unfold refs_ok; rewrite Hp, Hs;
      intros s Hin; apply in_app_or in Hin; destruct Hin as [Hin|[<-|[]]].
    + destruct (RF s Hin) as (p & Hpin & E).
      eexists. split; [apply in_update_rows_intro; exact Hpin|].
      rewrite <- E. destruct (_ =? _)%string; reflexivity.
    + eexists. split; [apply in_update_rows_intro; exact Hq|].
      simpl. rewrite <- Hid. destruct (_ =? _)%string; reflexivity.
    + exact (RF s Hin).
    + exists q. split; [exact Hq | exact Hid].
  - destruct (updateSlide_db i ctx e w) as [->|(Hs & Hp & _)]; [exact RF|].
    unfold refs_ok. rewrite Hp, Hs.
    intros s Hin. apply in_update_rows in Hin. destruct Hin as (r & Hr & ->).
    destruct (RF r Hr) as (p & Hpin & E). exists p. split; [exact Hpin|].
    rewrite E. destruct (_ =? _)%string; reflexivity.
  - destruct (deleteSlide_db i ctx e w) as [->|[Hs Hp]]; [exact RF|].
    unfold refs_ok. rewrite Hp, Hs.
    intros s Hin. apply filter_In in Hin. apply RF. apply Hin.
  - rewrite listSlides_db. exact RF.
Qed.

(** Every store reached by calls from one that meets the schema constraints
    meets them, so in particular every store reached from the empty one. *)
Lemma reachable_schema (rs : list Request) (w : World) :
  keys_ok (db w) /\ refs_ok (db w) ->
  keys_ok (db (serve_all rs w)) /\ refs_ok (db (serve_all rs w)).
Proof.
  revert w. unfold serve_all. induction rs as [|r rs IH]; simpl; intros w [K R];
    [split; assumption|].
  apply IH. destruct (serve_cases r w) as [->| ->]; [split; assumption|].
  split; [now apply handler_keeps_keys | now apply handler_keeps_refs].
Qed.

(** ** The cached slide count *)

Lemma handler_keeps_counts (c : Call) ctx e w :
  keeps_counts c = true ->
  (forall i, c = CreateSlide i ->
     (exists out, fst (handler c ctx e w) = inr out)
     \/ slides (db (snd (handler c ctx e w))) = slides (db w)) ->
  refs_ok (db w) -> counts_ok (db w) ->
  counts_ok (db (snd (handler c ctx e w))).
Proof.
  intros K Hcs RF CO. destruct c; simpl in *; try discriminate K.
  - destruct (createPresentation_db i ctx e w)
      as [->|(row & Hid & Hcount & Hfresh & Hp & Hs)]; [exact CO|].
    unfold counts_ok, slides_of. rewrite Hp, Hs. intros p Hin.
    apply in_app_or in Hin. destruct Hin as [Hin|[<-|[]]]; [exact (CO p Hin)|].
    rewrite Hcount, filter_none; [reflexivity|].
    intros s Hsin. apply String.eqb_neq. intros E.
    destruct (RF s Hsin) as (p & Hpin & Ep). apply (Hfresh p Hpin). congruence.
  - destruct (updatePresentation_db i ctx e w) as [->|[Hp Hs]]; [exact CO|].
    unfold counts_ok, slides_of. rewrite Hp, Hs. intros p' Hin.
    apply in_update_rows in Hin. destruct Hin as (r & Hr & ->).
    destruct (updatePresentation.slideCount i) eqn:SC; [discriminate K|].
    destruct (_ =? _)%string; simpl; [rewrite SC; simpl|]; exact (CO r Hr).
  - rewrite listPresentations_db. exact CO.
  - destruct (createSlide_db i ctx e w)
      as [->|(_ & _ & Hs & [Hp|[Hp (t & Hf)]])]; [exact CO| |].
    + unfold counts_ok, slides_of. rewrite Hp, Hs. intros p' Hin.
      apply in_update_rows in Hin. destruct Hin as (r & Hr & ->).
      rewrite filter_app, length_app. simpl.
      destruct (String.eqb_spec (Presentations.id r) (createSlide.presentationId i))
        as [E|E]; simpl.
      * rewrite E, String.eqb_refl. simpl. unfold slides_of. f_equal. lia.
      * rewrite (proj2 (String.eqb_neq _ _) (fun H => E (eq_sym H))). simpl.
        rewrite Nat.add_0_r. exact (CO r Hr).
    + exfalso. destruct (Hcs i eq_refl) as [(out & Ho)|Hsame].
      * rewrite Hf in Ho. discriminate Ho.
      * rewrite Hs in Hsame. apply (f_equal (@length _)) in Hsame.
        rewrite length_app in Hsame. simpl in Hsame. lia.
  - destruct (updateSlide_db i ctx e w) as [->|(Hs & Hp & _)]; [exact CO|].
    unfold counts_ok, slides_of. rewrite Hp, Hs. intros p Hin.
    rewrite filter_update_rows_length; [exact (CO p Hin) | reflexivity].
  - rewrite listSlides_db. exact CO.
Qed.

(** C1, as the code has it: in a store where every slide refers to a
    presentation of the store, "every presentation's [slideCount] is the
    number of slides referring to it" is kept, together with that
    reference, by createPresentation, by updatePresentation when its input
    does not supply [slideCount], by updateSlide and by the two listings,
    whatever they answer, and by createSlide when it answers with success
    or has stored no slide. *)
Theorem counts_kept_except_by_delete_and_count_patch (c : Call) ctx e w r w' :
  keeps_counts c = true ->
  (forall i, c = CreateSlide i ->
     (exists out, r = inr out) \/ slides (db w') = slides (db w)) ->
  refs_ok (db w) -> counts_ok (db w) ->
  server c ctx e w = (r, w') ->
  counts_ok (db w') /\ refs_ok (db w').
Proof.
  intros K Hcs RF CO H. destruct (schema c) eqn:V.
  - rewrite (server_valid c ctx e w V) in H.
    replace w' with (snd (handler c ctx e w)) by (rewrite H; reflexivity). split.
    + apply handler_keeps_counts; try assumption.
      intros i E. rewrite H. simpl. exact (Hcs i E).
    + now apply handler_keeps_refs.
  - rewrite (server_invalid c ctx e w V) in H. inversion H; subst. split; assumption.
Qed.

Lemma counts_kept_except_by_delete_and_count_patch_witness :
  counts_ok (db (serve (by_ "alice" 40 "s3" (CreateSlide (new_slide "p1" None))) two_slides)).
Proof.
  refine (proj1 (counts_kept_except_by_delete_and_count_patch
            (CreateSlide (new_slide "p1" None)) (signed_in "alice") (at_ 40 "s3") two_slides
            (inr (OutSlide (Some (createSlide.values (new_slide "p1" None) (at_ 40 "s3")
                                    [1; 2]))))
            (serve (by_ "alice" 40 "s3" (CreateSlide (new_slide "p1" None))) two_slides)
            eq_refl _ _ _ eq_refl)).
  - intros i _. left. eexists. reflexivity.
  - intros s Hin. vm_compute in Hin.
    destruct Hin as [<-|[<-|[]]]; exists (deck "p1" "alice" 2 10 30);
      (split; [left; reflexivity | reflexivity]).
  - intros p Hin. vm_compute in Hin. destruct Hin as [<-|[]]. reflexivity.
Defined.

(** C1, as stated, fails for two of the five operations.  After the spec's
    scenario the deck stores [slideCount] 2 and has two slides; deleting one
    of them leaves 2 stored for one slide.  And on the fresh deck, with 0
    stored and no slide, an [updatePresentation] that supplies
    [slideCount] 7 stores 7. *)
Lemma counts_broken_by_delete_and_by_count_patch :
  (counts_ok (db two_slides)
   /\ ~ counts_ok (db (serve (by_ "alice" 40 "" (DeleteSlide (slide_ref "s1" "p1")))
                             two_slides)))
  /\ (counts_ok (db one_deck)
      /\ ~ counts_ok (db (serve (by_ "alice" 40 ""
                                   (UpdatePresentation (deck_patch "p1" None (Some 7))))
                                one_deck))).
Proof.
  split; split.
  - intros p Hin. vm_compute in Hin. destruct Hin as [<-|[]]. reflexivity.
  - intros H. specialize (H (deck "p1" "alice" 2 10 30) (or_introl eq_refl)).
    vm_compute in H. discriminate H.
  - intros p Hin. vm_compute in Hin. destruct Hin as [<-|[]]. reflexivity.
  - intros H. specialize (H (deck "p1" "alice" 7 10 40) (or_introl eq_refl)).
    vm_compute in H. discriminate H.
Qed.

(** * Further properties of the handlers *)

(** ** The ownership guard and the two listings *)









(** ** Creation *)

(** X4: [createPresentation], called by a signed-in user with a non-empty
    title and an identifier no presentation has yet, succeeds.  It appends
    one row and changes nothing else; the row is owned by the caller, has
    the input's title, [slideCount] 0 and both dates set to the time of the
    call, and it is the row the call answers with. *)
Theorem createPresentation_stores_an_empty_deck
  (i : createPresentation.input) (u : User) ctx e w :
  createPresentation.schema i = true ->
  locals_user ctx = Some u ->
  (forall p, In p (presentations (db w)) -> Presentations.id p <> randomUUID e) ->
  exists row w',
    server (CreatePresentation i) ctx e w = (inr (OutPresentation (Some row)), w')
    /\ presentations (db w') = presentations (db w) ++ [row]
    /\ slides (db w') = slides (db w)
    /\ Presentations.id row = randomUUID e
    /\ Presentations.userId row = user_id u
    /\ Presentations.title row = createPresentation.title i
    /\ Presentations.slideCount row = Some 0
    /\ Presentations.createdAt row = now e
    /\ Presentations.updatedAt row = now e.
Proof.
  intros V U Hfresh.
  rewrite (server_valid (CreatePresentation i) ctx e w V). simpl.
  unfold createPresentation.handler, bind.
  rewrite (requireUser_some ctx u w U). unfold insert_Presentations. simpl.
  destruct (existsb _ (presentations (db w))) eqn:X.
  - apply existsb_exists in X. destruct X as (p & Hp & E).
    apply String.eqb_eq in E. exfalso. exact (Hfresh p Hp E).
  - unfold ret. simpl. eexists. eexists. split; [reflexivity|].
    simpl. repeat split; reflexivity.
Qed.

Lemma createPresentation_stores_an_empty_deck_witness :
  exists row w',
    server (CreatePresentation new_deck) (signed_in "bob") (at_ 40 "p3") two_decks
    = (inr (OutPresentation (Some row)), w')
    /\ presentations (db w') = presentations (db two_decks) ++ [row]
    /\ Presentations.userId row = "bob"
    /\ Presentations.slideCount row = Some 0.
Proof.
  destruct (createPresentation_stores_an_empty_deck
              new_deck {| user_id := "bob" |} (signed_in "bob") (at_ 40 "p3") two_decks)
    as (row & w' & H & Hp & _ & _ & Hu & _ & Hc & _); try reflexivity.
  - intros p Hin. vm_compute in Hin. destruct Hin as [<-|[<-|[]]]; discriminate.
  - exists row, w'. auto.
Defined.

Lemma createSlide_fresh (i : createSlide.input) ctx e w w' out :
  createSlide.handler i ctx e w = (inr out, w') ->
  forall s, In s (slides (db w)) -> Slides.id s <> randomUUID e.
Proof.
  unfold createSlide.handler, bind, requireUser.
  destruct (locals_user ctx) as [u|]; [|discriminate]. unfold ret at 1.
  destruct (getOwnedPresentation _ _ w) as [[f'|q] w1] eqn:G; [discriminate|].
  apply getOwnedPresentation_inv in G. destruct G as (-> & _).
  unfold select_Slides, insert_Slides. rewrite !db_touch.
  destruct (forallb readable _); [|discriminate]. rewrite !db_touch.
  destruct (existsb _ (slides (db w))) eqn:X; [discriminate|]. intros _.
  exact (existsb_key_false Slides.id _ _ X).
Qed.

(** A successful [createSlide] has read the presentation's order indices
    and read back the new one. *)
Lemma createSlide_readable (i : createSlide.input) ctx e w w' out :
  createSlide.handler i ctx e w = (inr out, w') ->
  forallb readable (slides_of (createSlide.presentationId i) (db w)) = true
  /\ readable (createSlide.values i e
                 (map Slides.orderIndex (slides_of (createSlide.presentationId i) (db w))))
     = true.
Proof.
  unfold createSlide.handler, bind, requireUser.
  destruct (locals_user ctx) as [u|]; [|discriminate]. unfold ret at 1.
  destruct (getOwnedPresentation _ _ w) as [[f'|q] w1] eqn:G; [discriminate|].
  apply getOwnedPresentation_inv in G. destruct G as (-> & _).
  unfold select_Slides, insert_Slides. rewrite !db_touch.
  fold (slides_of (createSlide.presentationId i) (db w)).
  destruct (forallb readable (slides_of (createSlide.presentationId i) (db w)));
    [|discriminate].
  rewrite !db_touch.
  destruct (existsb _ (slides (db w))); [discriminate|].
  destruct (readable _); [|discriminate]. intros _. split; reflexivity.
Qed.

Lemma createSlide_slides_of (i : createSlide.input) ctx e w w' out :
  createSlide.handler i ctx e w = (inr out, w') ->
  slides_of (createSlide.presentationId i) (db w')
  = slides_of (createSlide.presentationId i) (db w)
    ++ [createSlide.values i e
          (map Slides.orderIndex (slides_of (createSlide.presentationId i) (db w)))].
Proof.
  intros H. apply createSlide_inv in H.
  destruct H as (u & q & _ & _ & _ & _ & _ & _ & Hs).
  unfold slides_of at 1. rewrite Hs, filter_app. simpl.
  rewrite String.eqb_refl. reflexivity.
Qed.

(** X5: an order index supplied to [createSlide] is stored as given,
    whatever it is, and is not compared with the indices in use: every
    slide of the presentation that already had that index is still there
    beside the new one, so two slides then share the index. *)
Theorem explicit_order_index_is_stored_as_given
  (i : createSlide.input) (o : Z) ctx e w w' (sl : Slides.row) :
  createSlide.orderIndex i = Some o ->
  server (CreateSlide i) ctx e w = (inr (OutSlide (Some sl)), w') ->
  Slides.orderIndex sl = o
  /\ In sl (slides_of (createSlide.presentationId i) (db w'))
  /\ forall s, In s (slides_of (createSlide.presentationId i) (db w)) ->
       Slides.orderIndex s = o ->
       In s (slides_of (createSlide.presentationId i) (db w')) /\ s <> sl.
Proof.
  intros O H. apply server_ok_inv in H. destruct H as [_ H]. simpl in H.
  pose proof (createSlide_fresh i ctx e w w' _ H) as Hfresh.
  pose proof (createSlide_slides_of i ctx e w w' _ H) as Hso.
  apply createSlide_inv in H.
  destruct H as (u & q & _ & _ & _ & _ & Hout & _ & _).
  injection Hout as ->. rewrite Hso. split; [|split].
  - simpl. unfold createSlide.nextOrder. rewrite O. reflexivity.
  - apply in_or_app. right. now left.
  - intros s Hs _. split; [apply in_or_app; now left|].
    intros ->. apply filter_In in Hs. destruct Hs as [Hs _].
    exact (Hfresh _ Hs eq_refl).
Qed.

Lemma explicit_order_index_is_stored_as_given_witness :
  Slides.orderIndex (createSlide.values (new_slide "p1" (Some 5)) (at_ 40 "s2") [5]) = 5
  /\ In (createSlide.values (new_slide "p1" (Some 5)) (at_ 40 "s2") [5])
        (slides_of "p1"
           (db (serve (by_ "alice" 40 "s2" (CreateSlide (new_slide "p1" (Some 5))))
                      slide_at_five))).
Proof.
  destruct (explicit_order_index_is_stored_as_given
              (new_slide "p1" (Some 5)) 5 (signed_in "alice") (at_ 40 "s2") slide_at_five
              (serve (by_ "alice" 40 "s2" (CreateSlide (new_slide "p1" (Some 5))))
                     slide_at_five)
              (createSlide.values (new_slide "p1" (Some 5)) (at_ 40 "s2") [5])
              eq_refl eq_refl) as (H1 & H2 & _).
  split; [exact H1 | exact H2].
Defined.

(** X6: after a successful [createSlide] the [slideCount] stored for the
    named presentation is the number of slides that refer to it in the new
    store, whatever was stored before the call. *)
Theorem createSlide_leaves_parent_count_exact
  (i : createSlide.input) ctx e w w' out :
  server (CreateSlide i) ctx e w = (inr out, w') ->
  forall p', In p' (presentations (db w')) ->
    Presentations.id p' = createSlide.presentationId i ->
    Presentations.slideCount p'
    = Some (Z.of_nat (length (slides_of (createSlide.presentationId i) (db w')))).
Proof.
  intros H p' Hin Hid. apply server_ok_inv in H. destruct H as [_ H]. simpl in H.
  rewrite (createSlide_slides_of i ctx e w w' out H), length_app. simpl.
  destruct (createSlide_parent_after i ctx e w w' out H) as [_ Hall].
  rewrite (proj1 (Hall p' Hin Hid)). f_equal. lia.
Qed.

Lemma createSlide_leaves_parent_count_exact_witness :
  Presentations.slideCount (deck "p1" "alice" 1 10 40)
  = Some (Z.of_nat (length (slides_of "p1"
            (db (serve (by_ "alice" 40 "s2" (CreateSlide (new_slide "p1" None)))
                       slide_deleted))))).
Proof.
  apply (createSlide_leaves_parent_count_exact
           (new_slide "p1" None) (signed_in "alice") (at_ 40 "s2") slide_deleted
           (serve (by_ "alice" 40 "s2" (CreateSlide (new_slide "p1" None))) slide_deleted)
           (OutSlide (Some (createSlide.values (new_slide "p1" None) (at_ 40 "s2") [])))
           eq_refl (deck "p1" "alice" 1 10 40)).
  - left. reflexivity.
  - reflexivity.
Defined.

Lemma Math_max_of_numbering (k : nat) (x : Z) (xs : list Z) :
  x :: xs = map Z.of_nat (seq 1 (S k)) -> Math_max x xs = Z.of_nat (S k).
Proof.
  intros E. destruct (Math_max_fold xs x) as [Hin Hge]. rewrite E in Hin, Hge.
  apply in_map_iff in Hin. destruct Hin as (j & Ej & Hj). apply in_seq in Hj.
  assert (Hk : In (Z.of_nat (S k)) (map Z.of_nat (seq 1 (S k)))).
  { apply in_map. apply in_seq. lia. }
  specialize (Hge _ Hk). lia.
Qed.

(** X7: default numbering keeps a dense numbering dense.  If the slides of
    a presentation carry, in table order, the order indices 1, 2, ..., n,
    then after a successful [createSlide] without an order index they
    carry 1, 2, ..., n + 1. *)
Theorem default_order_extends_a_dense_numbering
  (i : createSlide.input) (n : nat) ctx e w w' out :
  createSlide.orderIndex i = None ->
  map Slides.orderIndex (slides_of (createSlide.presentationId i) (db w))
  = map Z.of_nat (seq 1 n) ->
  server (CreateSlide i) ctx e w = (inr out, w') ->
  map Slides.orderIndex (slides_of (createSlide.presentationId i) (db w'))
  = map Z.of_nat (seq 1 (S n)).
Proof.
  intros O D H. apply server_ok_inv in H. destruct H as [_ H]. simpl in H.
  destruct (createSlide_readable i ctx e w w' out H) as [R _].
  rewrite (createSlide_slides_of i ctx e w w' out H), map_app, seq_S, map_app, D.
  f_equal. simpl. f_equal. unfold createSlide.nextOrder. rewrite O.
  destruct n as [|k]; [reflexivity|].
  assert (B : Z.of_nat (S k) <= 2 ^ 53 - 1).
  { destruct (Z_le_gt_dec (Z.of_nat (S k)) (2 ^ 53 - 1)) as [L|G]; [exact L|].
    exfalso.
    assert (Hin : In (2 ^ 53)
                     (map Slides.orderIndex
                        (slides_of (createSlide.presentationId i) (db w)))).
    { rewrite D. apply in_map_iff. exists (Z.to_nat (2 ^ 53)).
      change (2 ^ 53) with 9007199254740992 in *.
      split; [lia|]. apply in_seq. lia. }
    apply in_map_iff in Hin. destruct Hin as (s & Es & Hs).
    rewrite forallb_forall in R. specialize (R s Hs).
    unfold readable in R. rewrite Es in R. vm_compute in R. discriminate R. }
  destruct (map Z.of_nat (seq 1 (S k))) as [|x xs] eqn:E; [discriminate E|].
  rewrite (Math_max_of_numbering k x xs (eq_sym E)).
  change (2 ^ 53) with 9007199254740992 in B.
  rewrite Number_add_exact by (change (2 ^ 53) with 9007199254740992; lia). lia.
Qed.

Lemma default_order_extends_a_dense_numbering_witness :
  map Slides.orderIndex
      (slides_of "p1"
         (db (serve (by_ "alice" 40 "s3" (CreateSlide (new_slide "p1" None))) two_slides)))
  = map Z.of_nat (seq 1 3).
Proof.
  apply (default_order_extends_a_dense_numbering
           (new_slide "p1" None) 2 (signed_in "alice") (at_ 40 "s3") two_slides
           (serve (by_ "alice" 40 "s3" (CreateSlide (new_slide "p1" None))) two_slides)
           (OutSlide (Some (createSlide.values (new_slide "p1" None) (at_ 40 "s3") [1; 2]))));
    reflexivity.
Defined.





(** ** Deletion *)

Lemma deleteSlide_inv (i : deleteSlide.input) ctx e w w' out :
  deleteSlide.handler i ctx e w = (inr out, w') ->
  exists u q,
    locals_user ctx = Some u
    /\ In q (presentations (db w))
    /\ Presentations.id q = deleteSlide.presentationId i
    /\ Presentations.userId q = user_id u
    /\ out = OutNone
    /\ filter (slide_in (deleteSlide.id i) (deleteSlide.presentationId i)) (slides (db w))
       <> []
    /\ slides (db w')
       = filter (fun s => negb (slide_in (deleteSlide.id i) (deleteSlide.presentationId i) s))
           (slides (db w))
    /\ presentations (db w') = presentations (db w).
Proof.
  unfold deleteSlide.handler, bind, requireUser.
  destruct (locals_user ctx) as [u|]; [|discriminate]. unfold ret at 1.
  destruct (getOwnedPresentation _ _ w) as [[f|q] w1] eqn:G; [discriminate|].
  apply getOwnedPresentation_inv in G. destruct G as (-> & Hq & Hid & Hu).
  unfold delete_Slides. simpl.
  destruct (filter _ (slides (db w))) as [|s0 l] eqn:F; simpl; [discriminate|].
  unfold ret. intros H. inversion H; subst; clear H.
  exists u, q. simpl. repeat split; try assumption; try reflexivity. discriminate.
Qed.

Lemma delete_unique (sid pid : string) (l : list Slides.row) (s : Slides.row) :
  NoDup (map Slides.id l) -> In s l -> slide_in sid pid s = true ->
  exists l1 l2,
    l = l1 ++ s :: l2
    /\ filter (fun r => negb (slide_in sid pid r)) l = l1 ++ l2.
Proof.
  intros ND Hs Hb. destruct (in_split s l Hs) as (l1 & l2 & ->).
  exists l1, l2. split; [reflexivity|].
  unfold slide_in in Hb. apply andb_true_iff in Hb. destruct Hb as [B1 B2].
  apply String.eqb_eq in B1.
  rewrite map_app in ND. simpl in ND. apply NoDup_remove_2 in ND.
  assert (H1 : forall r, In r l1 -> slide_in sid pid r = false).
  { intros r Hr. unfold slide_in.
    destruct (String.eqb_spec (Slides.id r) sid) as [E|E]; [|reflexivity].
    exfalso. apply ND. apply in_or_app. left. rewrite B1, <- E. now apply in_map. }
  assert (H2 : forall r, In r l2 -> slide_in sid pid r = false).
  { intros r Hr. unfold slide_in.
    destruct (String.eqb_spec (Slides.id r) sid) as [E|E]; [|reflexivity].
    exfalso. apply ND. apply in_or_app. right. rewrite B1, <- E. now apply in_map. }
  rewrite filter_app. simpl.
  rewrite (filter_negb_none _ l1 H1), (filter_negb_none _ l2 H2).
  unfold slide_in at 1. rewrite B1, String.eqb_refl, B2. reflexivity.
Qed.

Lemma filter_nonempty_in {A} (f : A -> bool) (l : list A) :
  filter f l <> [] -> exists x, In x l /\ f x = true.
Proof.
  destruct (filter f l) as [|x t] eqn:F; [congruence|]. intros _.
  exists x. apply filter_In. rewrite F. now left.
Qed.

(** X9: a successful [deleteSlide] removes the slides that carry both the
    slide identifier and the presentation identifier of the input, and no
    other: a slide is in the new table exactly when it was in the old one
    and does not carry both.  When slide identifiers are unique, as the
    primary key has it, that is one slide, taken out of its place with the
    rest of the table in the same order. *)
Theorem deleteSlide_removes_just_that_slide (i : deleteSlide.input) ctx e w w' out :
  server (DeleteSlide i) ctx e w = (inr out, w') ->
  out = OutNone
  /\ (forall s, In s (slides (db w'))
                <-> In s (slides (db w))
                    /\ ~ (Slides.id s = deleteSlide.id i
                          /\ Slides.presentationId s = deleteSlide.presentationId i))
  /\ (NoDup (map Slides.id (slides (db w))) ->
      exists l1 s l2,
        slides (db w) = l1 ++ s :: l2
        /\ slides (db w') = l1 ++ l2
        /\ Slides.id s = deleteSlide.id i
        /\ Slides.presentationId s = deleteSlide.presentationId i).
Proof.
  intros H. apply server_ok_inv in H. destruct H as [_ H]. simpl in H.
  apply deleteSlide_inv in H.
  destruct H as (u & q & _ & _ & _ & _ & Hout & Hne & Hs & _).
  split; [exact Hout|]. rewrite Hs. split.
  - intros s. rewrite filter_In. unfold slide_in.
    rewrite negb_true_iff, andb_false_iff, !String.eqb_neq.
    split; intros [Hin Hn]; (split; [exact Hin|]); [tauto|].
    destruct (String.eqb_spec (Slides.id s) (deleteSlide.id i)) as [E|E];
      [|now left].
    right. intros E'. apply Hn. now split.
  - intros ND. destruct (filter_nonempty_in _ _ Hne) as (s & Hin & Hb).
    destruct (delete_unique _ _ _ s ND Hin Hb) as (l1 & l2 & E1 & E2).
    exists l1, s, l2. rewrite E2. unfold slide_in in Hb.
    apply andb_true_iff in Hb. destruct Hb as [B1 B2].
    apply String.eqb_eq in B1, B2. auto.
Qed.

Lemma deleteSlide_removes_just_that_slide_witness :
  In (createSlide.values (new_slide "p1" None) (at_ 30 "s2") [1])
     (slides (db (serve (by_ "alice" 40 "" (DeleteSlide (slide_ref "s1" "p1")))
                        two_slides)))
  <-> In (createSlide.values (new_slide "p1" None) (at_ 30 "s2") [1])
         (slides (db two_slides))
      /\ ~ (Slides.id (createSlide.values (new_slide "p1" None) (at_ 30 "s2") [1]) = "s1"
            /\ Slides.presentationId
                 (createSlide.values (new_slide "p1" None) (at_ 30 "s2") [1]) = "p1").
Proof.
  apply (deleteSlide_removes_just_that_slide
           (slide_ref "s1" "p1") (signed_in "alice") (at_ 40 "") two_slides
           (serve (by_ "alice" 40 "" (DeleteSlide (slide_ref "s1" "p1"))) two_slides)
           OutNone).
  reflexivity.
Defined.

(** X10: [deleteSlide] leaves the cached count one too high.  From a store
    with unique slide identifiers in which every [slideCount] is exact, a
    successful [deleteSlide] leads to a store in which the named
    presentation stores one more than the number of its slides, while every
    other presentation's [slideCount] is still exact. *)
Theorem deleteSlide_leaves_parent_count_one_too_high
  (i : deleteSlide.input) ctx e w w' out :
  NoDup (map Slides.id (slides (db w))) ->
  counts_ok (db w) ->
  server (DeleteSlide i) ctx e w = (inr out, w') ->
  forall p', In p' (presentations (db w')) ->
    (Presentations.id p' = deleteSlide.presentationId i ->
     Presentations.slideCount p'
     = Some (Z.of_nat (length (slides_of (deleteSlide.presentationId i) (db w'))) + 1))
    /\ (Presentations.id p' <> deleteSlide.presentationId i ->
        Presentations.slideCount p'
        = Some (Z.of_nat (length (slides_of (Presentations.id p') (db w'))))).
Proof.
  intros ND CO H p' Hin. apply server_ok_inv in H. destruct H as [_ H]. simpl in H.
  apply deleteSlide_inv in H.
  destruct H as (u & q & _ & _ & _ & _ & _ & Hne & Hs & Hp).
  destruct (filter_nonempty_in _ _ Hne) as (s & Hsin & Hb).
  destruct (delete_unique _ _ _ s ND Hsin Hb) as (l1 & l2 & E1 & E2).
  unfold slide_in in Hb. apply andb_true_iff in Hb. destruct Hb as [_ B2].
  apply String.eqb_eq in B2.
  rewrite Hp in Hin. pose proof (CO p' Hin) as C. unfold slides_of in *.
  rewrite Hs, E2.
  rewrite E1, filter_app, length_app in C.
  simpl in C. rewrite B2 in C. split; intros Hid; rewrite filter_app, length_app.
  - rewrite Hid in C. rewrite String.eqb_refl in C. simpl in C.
    rewrite C. f_equal. lia.
  - rewrite (proj2 (String.eqb_neq _ _) (fun E => Hid (eq_sym E))) in C. exact C.
Qed.

Lemma deleteSlide_leaves_parent_count_one_too_high_witness :
  Presentations.slideCount (deck "p1" "alice" 2 10 30)
  = Some (Z.of_nat (length (slides_of "p1"
            (db (serve (by_ "alice" 40 "" (DeleteSlide (slide_ref "s1" "p1")))
                       two_slides)))) + 1).
Proof.
  refine (proj1 (deleteSlide_leaves_parent_count_one_too_high
            (slide_ref "s1" "p1") (signed_in "alice") (at_ 40 "") two_slides
            (serve (by_ "alice" 40 "" (DeleteSlide (slide_ref "s1" "p1"))) two_slides)
            OutNone _ _ eq_refl (deck "p1" "alice" 2 10 30) _) eq_refl).
  - distinct_keys.
  - intros p Hin. vm_compute in Hin. destruct Hin as [<-|[]]. reflexivity.
  - left. reflexivity.
Defined.

Lemma deleteSlide_nothing_to_delete
  (i : deleteSlide.input) (u : User) ctx e w (q : Presentations.row) :
  locals_user ctx = Some u ->
  In q (presentations (db w)) ->
  Presentations.id q = deleteSlide.presentationId i ->
  Presentations.userId q = user_id u ->
  (forall s, In s (slides (db w)) ->
     slide_in (deleteSlide.id i) (deleteSlide.presentationId i) s = false) ->
  exists w',
    deleteSlide.handler i ctx e w = (inl (ActionError NOT_FOUND "Slide not found."), w')
    /\ db w' = db w.
Proof.
  intros U Hq Hid Hu F.
  destruct (getOwnedPresentation_found _ _ w q Hq Hid Hu) as (q' & G & _).
  unfold deleteSlide.handler, bind.
  rewrite (requireUser_some ctx u w U), G.
  unfold delete_Slides. simpl. rewrite (filter_none _ _ F). simpl.
  eexists. split; [reflexivity|]. simpl.
  rewrite (filter_negb_none _ _ F). destruct (db w); reflexivity.
Qed.

(** X11: deleting twice.  After a successful [deleteSlide], the same call
    made again by the same caller fails with [NOT_FOUND] and leaves the
    store as the first call left it. *)
Theorem deleteSlide_again_is_not_found (i : deleteSlide.input) ctx e e' w w1 out :
  server (DeleteSlide i) ctx e w = (inr out, w1) ->
  exists w2,
    server (DeleteSlide i) ctx e' w1
    = (inl (ActionError NOT_FOUND "Slide not found."), w2)
    /\ db w2 = db w1.
Proof.
  intros H. apply server_ok_inv in H. destruct H as [V H]. simpl in H.
  apply deleteSlide_inv in H.
  destruct H as (u & q & U & Hq & Hid & Hu & _ & _ & Hs & Hp).
  rewrite (server_valid (DeleteSlide i) ctx e' w1 V). simpl.
  apply (deleteSlide_nothing_to_delete i u ctx e' w1 q U); try assumption.
  - rewrite Hp. exact Hq.
  - intros s Hin. rewrite Hs in Hin. apply filter_In in Hin.
    destruct Hin as [_ Hn]. now apply negb_true_iff in Hn.
Qed.

Lemma deleteSlide_again_is_not_found_witness :
  exists w2,
    server (DeleteSlide (slide_ref "s1" "p1")) (signed_in "alice") (at_ 50 "")
           (serve (by_ "alice" 40 "" (DeleteSlide (slide_ref "s1" "p1"))) two_slides)
    = (inl (ActionError NOT_FOUND "Slide not found."), w2)
    /\ db w2
       = db (serve (by_ "alice" 40 "" (DeleteSlide (slide_ref "s1" "p1"))) two_slides).
Proof.
  apply (deleteSlide_again_is_not_found
           (slide_ref "s1" "p1") (signed_in "alice") (at_ 40 "") (at_ 50 "") two_slides
           (serve (by_ "alice" 40 "" (DeleteSlide (slide_ref "s1" "p1"))) two_slides)
           OutNone).
  reflexivity.
Defined.

(** ** Failures and other users' rows *)

Lemma filter_negb_of_empty {A} (f : A -> bool) (l : list A) :
  filter f l = [] -> filter (fun x => negb (f x)) l = l.
Proof.
  intros E. apply filter_negb_none. intros x Hx.
  destruct (f x) eqn:F; [|reflexivity].
  assert (Hin : In x (filter f l)) by (apply filter_In; now split).
  rewrite E in Hin. destruct Hin.
Qed.

Lemma handler_failure_db (c : Call) ctx e w f w' :
  handler c ctx e w = (inl f, w') ->
  (forall t, f <> DriverError t) ->
  db w' = db w.
Proof.
  intros H ND. revert H.
  destruct c; simpl;
    [ unfold createPresentation.handler | unfold updatePresentation.handler
    | unfold listPresentations.handler | unfold createSlide.handler
    | unfold updateSlide.handler | unfold deleteSlide.handler
    | unfold listSlides.handler ];
    unfold bind, requireUser;
    (destruct (locals_user ctx) as [u|]; [|intros H; inversion H; reflexivity]);
    unfold ret at 1.
  - unfold insert_Presentations. simpl.
    destruct (existsb _ (presentations (db w))); intros H; inversion H; reflexivity.
  - pose proof (getOwnedPresentation_db (updatePresentation.id i) (user_id u) w) as D.
    destruct (getOwnedPresentation _ _ w) as [[f'|q] w1]; simpl in D;
      [intros H; inversion H; subst; exact D|].
    unfold update_Presentations, ret. discriminate.
  - unfold select_Presentations, ret. discriminate.
  - pose proof (getOwnedPresentation_db (createSlide.presentationId i) (user_id u) w) as D.
    destruct (getOwnedPresentation _ _ w) as [[f'|q] w1]; simpl in D;
      [intros H; inversion H; subst; exact D|].
    unfold select_Slides, insert_Slides. rewrite ?db_touch.
    destruct (forallb readable _); [|intros H; inversion H; subst; exact D].
    rewrite ?db_touch.
    destruct (existsb _ (slides (db w1))); [intros H; inversion H; subst; exact D|].
    destruct (readable _).
    + unfold update_Presentations, ret. discriminate.
    + intros H. inversion H; subst. exfalso. exact (ND TSlides eq_refl).
  - pose proof (getOwnedPresentation_db (updateSlide.presentationId i) (user_id u) w) as D.
    destruct (getOwnedPresentation _ _ w) as [[f'|q] w1]; simpl in D;
      [intros H; inversion H; subst; exact D|].
    unfold select_Slides. rewrite ?db_touch.
    destruct (forallb readable _); [|intros H; inversion H; subst; exact D].
    destruct (filter _ (slides (db w1))); [intros H; inversion H; subst; exact D|].
    unfold update_Slides.
    destruct (forallb readable _).
    + unfold ret. discriminate.
    + intros H. inversion H; subst. exfalso. exact (ND TSlides eq_refl).
  - pose proof (getOwnedPresentation_db (deleteSlide.presentationId i) (user_id u) w) as D.
    destruct (getOwnedPresentation _ _ w) as [[f'|q] w1]; simpl in D;
      [intros H; inversion H; subst; exact D|].
    unfold delete_Slides. simpl.
    destruct (filter _ (slides (db w1))) as [|s0 l] eqn:F; simpl.
    + intros H. inversion H; subst. simpl.
      rewrite (filter_negb_of_empty _ _ F). rewrite <- D. destruct (db w1); reflexivity.
    + unfold ret. discriminate.
  - pose proof (getOwnedPresentation_db (listSlides.presentationId i) (user_id u) w) as D.
    destruct (getOwnedPresentation _ _ w) as [[f'|q] w1]; simpl in D;
      [intros H; inversion H; subst; exact D|].
    unfold select_Slides, ret.
    destruct (forallb readable _); [discriminate|].
    intros H. inversion H; subst. exact D.
Qed.

(** X12: the failures the handlers raise themselves leave no change.
    Whenever one of the seven actions answers [UNAUTHORIZED] or
    [NOT_FOUND], or with a rejected input, or with a repeated primary key at
    an insert, both tables are what they were before the call.  (A driver
    error is another matter: see X18.) *)
Theorem failed_call_leaves_store_unchanged (c : Call) ctx e w f w' :
  server c ctx e w = (inl f, w') ->
  (forall t, f <> DriverError t) ->
  db w' = db w.
Proof.
  intros H ND. destruct (schema c) eqn:V.
  - rewrite (server_valid c ctx e w V) in H.
    exact (handler_failure_db c ctx e w f w' H ND).
  - rewrite (server_invalid c ctx e w V) in H. inversion H. reflexivity.
Qed.

Lemma failed_call_leaves_store_unchanged_witness :
  db (serve (by_ "alice" 40 "s1" (CreateSlide (new_slide "p1" None))) two_slides)
  = db two_slides.
Proof.
  apply (failed_call_leaves_store_unchanged
           (CreateSlide (new_slide "p1" None)) (signed_in "alice") (at_ 40 "s1") two_slides
           (ConstraintError TSlides)
           (serve (by_ "alice" 40 "s1" (CreateSlide (new_slide "p1" None))) two_slides)).
  - reflexivity.
  - discriminate.
Defined.

Lemma NoDup_key_eq {R} (key : R -> string) (l : list R) (a b : R) :
  NoDup (map key l) -> In a l -> In b l -> key a = key b -> a = b.
Proof.
  induction l as [|x l IH]; simpl; intros ND Ha Hb E; [destruct Ha|].
  inversion ND as [|k ks Hk Hks]; subst.
  destruct Ha as [->|Ha], Hb as [->|Hb].
  - reflexivity.
  - exfalso. apply Hk. rewrite E. now apply in_map.
  - exfalso. apply Hk. rewrite <- E. now apply in_map.
  - now apply IH.
Qed.

Lemma createPresentation_inv (i : createPresentation.input) ctx e w w' out :
  createPresentation.handler i ctx e w = (inr out, w') ->
  exists u row,
    locals_user ctx = Some u
    /\ Presentations.userId row = user_id u
    /\ presentations (db w') = presentations (db w) ++ [row]
    /\ slides (db w') = slides (db w).
Proof.
  unfold createPresentation.handler, bind, requireUser.
  destruct (locals_user ctx) as [u|]; [|discriminate]. unfold ret at 1.
  unfold insert_Presentations. simpl.
  destruct (existsb _ (presentations (db w))); [discriminate|].
  unfold ret. intros H. inversion H; subst; clear H.
  exists u. eexists. simpl. repeat split; reflexivity.
Qed.

(** A call that names a presentation succeeds only for its owner. *)
Lemma guarded_success (c : Call) (pid : string) ctx e w w' out :
  addressed c = Some pid ->
  handler c ctx e w = (inr out, w') ->
  exists u q,
    locals_user ctx = Some u
    /\ In q (presentations (db w))
    /\ Presentations.id q = pid /\ Presentations.userId q = user_id u.
Proof.
  intros A.
  destruct c; simpl in A; try discriminate A; injection A as <-; simpl;
    [ unfold updatePresentation.handler | unfold createSlide.handler
    | unfold updateSlide.handler | unfold deleteSlide.handler
    | unfold listSlides.handler ];
    unfold bind, requireUser;
    (destruct (locals_user ctx) as [u|]; [|discriminate]); unfold ret at 1;
    (destruct (getOwnedPresentation _ _ w) as [[f'|q] w1] eqn:G; [discriminate|]);
    apply getOwnedPresentation_inv in G; destruct G as (_ & Hq & Hid & Hu);
    intros _; exists u, q; auto.
Qed.

(** A call changes the store only on behalf of a signed-in user, and one
    that names a presentation only on behalf of its owner. *)
Lemma createPresentation_change (i : createPresentation.input) ctx e w :
  db (snd (createPresentation.handler i ctx e w)) = db w
  \/ exists u row,
       locals_user ctx = Some u
       /\ Presentations.userId row = user_id u
       /\ presentations (db (snd (createPresentation.handler i ctx e w)))
          = presentations (db w) ++ [row]
       /\ slides (db (snd (createPresentation.handler i ctx e w))) = slides (db w).
Proof.
  destruct (createPresentation.handler i ctx e w) as [[f|out] w'] eqn:H; simpl.
  - left. revert H. unfold createPresentation.handler, bind, requireUser.
    destruct (locals_user ctx) as [u|]; [|intros H; inversion H; reflexivity].
    unfold ret at 1. unfold insert_Presentations. simpl.
    destruct (existsb _ (presentations (db w))); [|unfold ret; discriminate].
    intros H. inversion H. reflexivity.
  - right. apply createPresentation_inv in H. exact H.
Qed.

Lemma guarded_change (c : Call) (pid : string) ctx e w :
  addressed c = Some pid ->
  db (snd (handler c ctx e w)) = db w
  \/ exists u q,
       locals_user ctx = Some u
       /\ In q (presentations (db w))
       /\ Presentations.id q = pid /\ Presentations.userId q = user_id u.
Proof.
  intros A.
  destruct c; simpl in A; try discriminate A; injection A as <-; simpl;
    [ unfold updatePresentation.handler | unfold createSlide.handler
    | unfold updateSlide.handler | unfold deleteSlide.handler
    | unfold listSlides.handler ];
    unfold bind, requireUser;
    (destruct (locals_user ctx) as [u|]; [|left; reflexivity]); unfold ret at 1.
  all: match goal with
       | |- context [getOwnedPresentation ?p ?uid ?w0] =>
           pose proof (getOwnedPresentation_db p uid w0) as D;
           destruct (getOwnedPresentation p uid w0) as [[f'|q] w1] eqn:G;
           [ left; exact D
           | right; apply getOwnedPresentation_inv in G;
             destruct G as (_ & Hq & Hid & Hu); exists u, q; auto ]
       end.
Qed.

Lemma update_rows_foreign {R} (key owner : R -> string) (set_ : R -> R) (k uid : string)
  (l : list R) (q : R) :
  NoDup (map key l) -> In q l -> key q = k -> owner q <> uid ->
  (forall r, owner (set_ r) = owner r) ->
  forall p, owner p = uid ->
    (In p (update_rows set_ (fun r => key r =? k)%string l) <-> In p l).
Proof.
  intros ND Hq Hk Ho Hset p Hp. split.
  - intros Hin. apply in_update_rows in Hin. destruct Hin as (r & Hr & ->).
    destruct (String.eqb_spec (key r) k) as [E|E]; [|exact Hr].
    exfalso. assert (r = q) by (apply (NoDup_key_eq key l); congruence).
    subst r. rewrite Hset in Hp. exact (Ho Hp).
  - intros Hin. pose proof (in_update_rows_intro set_ (fun r => key r =? k)%string l p Hin) as H.
    cbv beta in H. destruct (String.eqb_spec (key p) k) as [E|E]; [|exact H].
    exfalso. assert (p = q) by (apply (NoDup_key_eq key l); congruence).
    subst p. exact (Ho Hp).
Qed.

(** X13: a call changes nothing that belongs to another user.  In a store
    that meets both primary keys, whatever a call made by someone other
    than user [uid] (or by nobody) answers, the presentations owned by
    [uid] are the same rows before and after, and so are the slides of the
    presentations owned by [uid]. *)
Theorem other_users_rows_are_untouched (c : Call) (uid : string) ctx e w r w' :
  keys_ok (db w) ->
  (forall u, locals_user ctx = Some u -> user_id u <> uid) ->
  server c ctx e w = (r, w') ->
  (forall p, Presentations.userId p = uid ->
     (In p (presentations (db w')) <-> In p (presentations (db w))))
  /\ (forall s p, In p (presentations (db w)) -> Presentations.userId p = uid ->
        Slides.presentationId s = Presentations.id p ->
        (In s (slides (db w')) <-> In s (slides (db w)))).
Proof.
  intros [KP KS] Hother H.
  assert (Hw : w' = w \/ w' = snd (handler c ctx e w)).
  { destruct (schema c) eqn:V.
    - right. rewrite (server_valid c ctx e w V) in H. rewrite H. reflexivity.
    - left. rewrite (server_invalid c ctx e w V) in H. now inversion H. }
  clear H. destruct Hw as [->| ->]; [split; intros; reflexivity|].
  assert (Same : db (snd (handler c ctx e w)) = db w ->
    (forall p, Presentations.userId p = uid ->
       (In p (presentations (db (snd (handler c ctx e w))))
        <-> In p (presentations (db w))))
    /\ (forall s p, In p (presentations (db w)) -> Presentations.userId p = uid ->
          Slides.presentationId s = Presentations.id p ->
          (In s (slides (db (snd (handler c ctx e w)))) <-> In s (slides (db w))))).
  { intros ->. split; intros; reflexivity. }
  assert (Foreign : forall pid u q p,
    locals_user ctx = Some u -> In q (presentations (db w)) ->
    Presentations.id q = pid -> Presentations.userId q = user_id u ->
    In p (presentations (db w)) -> Presentations.userId p = uid ->
    Presentations.id p <> pid).
  { intros pid u q p U Hq Hid Hu Hp Hpu E.
    assert (p = q) by (apply (NoDup_key_eq Presentations.id _ p q KP Hp Hq); congruence).
    subst p. apply (Hother u U). congruence. }
  destruct c.
  - simpl in *.
    destruct (createPresentation_change i ctx e w) as [D|(u & row & U & Hu & Hp & Hs)];
      [exact (Same D)|].
    rewrite Hp, Hs. split; [|intros; reflexivity].
    intros p Hpu. rewrite in_app_iff. simpl. split; [|now left].
    intros [Hin|[<-|[]]]; [exact Hin|]. exfalso. apply (Hother u U). congruence.
  - destruct (guarded_change (UpdatePresentation i) _ ctx e w eq_refl)
      as [D|(u & q & U & Hq & Hid & Hu)]; [exact (Same D)|].
    simpl in *.
    destruct (updatePresentation_db i ctx e w) as [D|[Hp Hs]]; [exact (Same D)|].
    rewrite Hp, Hs. split; [|intros; reflexivity].
    apply (update_rows_foreign Presentations.id Presentations.userId _ _ uid _ q
             KP Hq Hid); [|reflexivity].
    rewrite Hu. exact (Hother u U).
  - apply Same. simpl. apply listPresentations_db.
  - destruct (guarded_change (CreateSlide i) _ ctx e w eq_refl)
      as [D|(u & q & U & Hq & Hid & Hu)]; [exact (Same D)|].
    simpl in *.
    destruct (createSlide_db i ctx e w) as [D|(_ & _ & Hs & Hp)]; [exact (Same D)|].
    rewrite Hs. split.
    + destruct Hp as [Hp|[Hp _]]; rewrite Hp; [|intros; reflexivity].
      apply (update_rows_foreign Presentations.id Presentations.userId _ _ uid _ q
               KP Hq Hid); [|reflexivity].
      rewrite Hu. exact (Hother u U).
    + intros s p Hpin Hpu Es. rewrite in_app_iff. simpl. split; [|now left].
      intros [Hin|[<-|[]]]; [exact Hin|]. exfalso.
      apply (Foreign _ u q p U Hq Hid Hu Hpin Hpu). simpl in Es. now symmetry.
  - destruct (guarded_change (UpdateSlide i) _ ctx e w eq_refl)
      as [D|(u & q & U & Hq & Hid & Hu)]; [exact (Same D)|].
    simpl in *.
    destruct (updateSlide_db i ctx e w)
      as [D|(Hs & Hp & s0 & Hs0 & Hsid & Hspid)]; [exact (Same D)|].
    rewrite Hp, Hs. split; [intros; reflexivity|].
    intros s p Hpin Hpu Es. split.
    + intros Hin. apply in_update_rows in Hin. destruct Hin as (r0 & Hr0 & ->).
      destruct (String.eqb_spec (Slides.id r0) (updateSlide.id i)) as [E|E]; [|exact Hr0].
      exfalso. assert (r0 = s0) by (apply (NoDup_key_eq Slides.id _ r0 s0 KS); congruence).
      subst r0. simpl in Es.
      apply (Foreign _ u q p U Hq Hid Hu Hpin Hpu). congruence.
    + intros Hin.
      pose proof (in_update_rows_intro (updateSlide.set_ i (now e))
                    (fun r => Slides.id r =? updateSlide.id i)%string _ s Hin) as K.
      cbv beta in K.
      destruct (String.eqb_spec (Slides.id s) (updateSlide.id i)) as [E|E]; [|exact K].
      exfalso. assert (s = s0) by (apply (NoDup_key_eq Slides.id _ s s0 KS); congruence).
      subst s. apply (Foreign _ u q p U Hq Hid Hu Hpin Hpu). congruence.
  - destruct (guarded_change (DeleteSlide i) _ ctx e w eq_refl)
      as [D|(u & q & U & Hq & Hid & Hu)]; [exact (Same D)|].
    simpl in *.
    destruct (deleteSlide_db i ctx e w) as [D|[Hs Hp]]; [exact (Same D)|].
    rewrite Hp, Hs. split; [intros; reflexivity|].
    intros s p Hpin Hpu Es. rewrite filter_In. split; [now intros [Hin _]|].
    intros Hin. split; [exact Hin|]. apply negb_true_iff. unfold slide_in.
    destruct (String.eqb_spec (Slides.presentationId s) (deleteSlide.presentationId i))
      as [E|E]; [|apply andb_false_r].
    exfalso. apply (Foreign _ u q p U Hq Hid Hu Hpin Hpu). congruence.
  - apply Same. simpl. apply listSlides_db.
Qed.

Lemma other_users_rows_are_untouched_witness :
  (forall p, Presentations.userId p = "alice" ->
     (In p (presentations
              (db (serve (by_ "bob" 50 "s9" (CreateSlide (new_slide "p3" None)))
                         two_owners)))
      <-> In p (presentations (db two_owners))))
  /\ (forall s p, In p (presentations (db two_owners)) ->
        Presentations.userId p = "alice" ->
        Slides.presentationId s = Presentations.id p ->
        (In s (slides
                 (db (serve (by_ "bob" 50 "s9" (CreateSlide (new_slide "p3" None)))
                            two_owners)))
         <-> In s (slides (db two_owners)))).
Proof.
  apply (other_users_rows_are_untouched
           (CreateSlide (new_slide "p3" None)) "alice" (signed_in "bob") (at_ 50 "s9")
           two_owners
           (inr (OutSlide (Some (createSlide.values (new_slide "p3" None) (at_ 50 "s9") []))))
           (serve (by_ "bob" 50 "s9" (CreateSlide (new_slide "p3" None))) two_owners)).
  - split; distinct_keys.
  - intros u U. injection U as <-. simpl. discriminate.
  - reflexivity.
Defined.

(** X14: every store the actions can build from the empty one meets the
    schema: presentation identifiers are pairwise distinct, slide
    identifiers are pairwise distinct, and every slide refers to a
    presentation that is in the store. *)
Theorem every_reachable_store_meets_the_schema (rs : list Request) :
  keys_ok (db (serve_all rs empty_world)) /\ refs_ok (db (serve_all rs empty_world)).
Proof.
  apply reachable_schema. split; [split; constructor|]. intros s [].
Qed.

(** X15: presentations are never removed and never change identity.
    Across any sequence of calls, the identifiers, owners and creation
    dates of the presentations of the starting store stay what and where
    they were; the table can only grow at its end. *)
Theorem presentations_only_grow (rs : list Request) (w : World) :
  exists added,
    map (fun p => (Presentations.id p, Presentations.userId p, Presentations.createdAt p))
        (presentations (db (serve_all rs w)))
    = map (fun p => (Presentations.id p, Presentations.userId p, Presentations.createdAt p))
          (presentations (db w))
      ++ added.
Proof.
  revert w. unfold serve_all. induction rs as [|r rs IH]; simpl; intros w.
  - exists []. now rewrite app_nil_r.
  - destruct (IH (serve r w)) as (added & E). rewrite E. clear E IH.
    assert (Step : exists a,
      map (fun p => (Presentations.id p, Presentations.userId p, Presentations.createdAt p))
          (presentations (db (serve r w)))
      = map (fun p => (Presentations.id p, Presentations.userId p, Presentations.createdAt p))
            (presentations (db w)) ++ a).
    { destruct (serve_cases r w) as [->| ->]; [exists []; now rewrite app_nil_r|].
      destruct (call r); simpl.
      - destruct (createPresentation_db i (context r) (env r) w)
          as [->|(row & _ & _ & _ & Hp & _)]; [exists []; now rewrite app_nil_r|].
        rewrite Hp, map_app. eexists. reflexivity.
      - destruct (updatePresentation_db i (context r) (env r) w) as [->|[Hp _]];
          [exists []; now rewrite app_nil_r|].
        rewrite Hp, map_update_rows by reflexivity. exists []. now rewrite app_nil_r.
      - rewrite listPresentations_db. exists []. now rewrite app_nil_r.
      - destruct (createSlide_db i (context r) (env r) w)
          as [->|(_ & _ & _ & [Hp|[Hp _]])];
          [exists []; now rewrite app_nil_r| |]; rewrite Hp.
        + rewrite map_update_rows by reflexivity. exists []. now rewrite app_nil_r.
        + exists []. now rewrite app_nil_r.
      - destruct (updateSlide_db i (context r) (env r) w) as [->|(_ & Hp & _)];
          [exists []; now rewrite app_nil_r|].
        rewrite Hp. exists []. now rewrite app_nil_r.
      - destruct (deleteSlide_db i (context r) (env r) w) as [->|[_ Hp]];
          [exists []; now rewrite app_nil_r|].
        rewrite Hp. exists []. now rewrite app_nil_r.
      - rewrite listSlides_db. exists []. now rewrite app_nil_r. }
    destruct Step as (a & ->). exists (a ++ added). now rewrite app_assoc.
Qed.

(** ** What every stored presentation satisfies *)

Lemma nonempty_true (s : string) : nonempty s = true -> s <> "".
Proof.
  unfold nonempty. intros H E. subst s. discriminate H.
Qed.

Lemma serve_keeps_titles (r : Request) (w : World) :
  (forall p, In p (presentations (db w)) ->
     Presentations.title p <> "" /\ Presentations.slideCount p <> None) ->
  forall p, In p (presentations (db (serve r w))) ->
    Presentations.title p <> "" /\ Presentations.slideCount p <> None.
Proof.
  intros Inv p. destruct (schema (call r)) eqn:V.
  2: { unfold serve. rewrite (server_invalid _ _ _ _ V). simpl. apply Inv. }
  unfold serve. rewrite (server_valid _ _ _ _ V).
  destruct (call r); simpl in *.
  - unfold createPresentation.handler, bind, requireUser.
    destruct (locals_user (context r)) as [u|]; [|apply Inv]. unfold ret at 1.
    unfold insert_Presentations. simpl.
    destruct (existsb _ (presentations (db w))); [apply Inv|].
    simpl. intros Hin. apply in_app_or in Hin. destruct Hin as [Hin|[<-|[]]];
      [exact (Inv p Hin)|].
    simpl. split; [apply nonempty_true; exact V | discriminate].
  - destruct (updatePresentation_db i (context r) (env r) w) as [->|[Hp _]];
      [apply Inv|].
    rewrite Hp. intros Hin. apply in_update_rows in Hin. destruct Hin as (q & Hq & ->).
    destruct (Inv q Hq) as [T C].
    destruct (_ =? _)%string; [|split; assumption]. simpl.
    unfold updatePresentation.schema in V.
    apply andb_true_iff in V. destruct V as [V _].
    apply andb_true_iff in V. destruct V as [_ V]. split.
    + destruct (updatePresentation.title i); [apply nonempty_true; exact V | exact T].
    + destruct (updatePresentation.slideCount i); [discriminate | exact C].
  - rewrite listPresentations_db. apply Inv.
  - destruct (createSlide_db i (context r) (env r) w)
      as [->|(_ & _ & _ & [Hp|[Hp _]])]; [apply Inv| |]; rewrite Hp; [|apply Inv].
    intros Hin. apply in_update_rows in Hin. destruct Hin as (q & Hq & ->).
    destruct (Inv q Hq) as [T C].
    destruct (_ =? _)%string; [|split; assumption]. simpl.
    split; [exact T | discriminate].
  - destruct (updateSlide_db i (context r) (env r) w) as [->|(_ & Hp & _)]; [apply Inv|].
    rewrite Hp. apply Inv.
  - destruct (deleteSlide_db i (context r) (env r) w) as [->|[_ Hp]]; [apply Inv|].
    rewrite Hp. apply Inv.
  - rewrite listSlides_db. apply Inv.
Qed.

(** X17: in every store the actions can build from the empty one, each
    presentation has a title that is not the empty string and a
    [slideCount] that is present.  The titles rest on the input schemas,
    checked before a handler runs: [createPresentation] asks for a
    non-empty title and [updatePresentation] for a non-empty one when it
    supplies one. *)
Theorem stored_presentations_have_a_title_and_a_count (rs : list Request) :
  forall p, In p (presentations (db (serve_all rs empty_world))) ->
    Presentations.title p <> "" /\ Presentations.slideCount p <> None.
Proof.
  assert (G : forall w,
    (forall p, In p (presentations (db w)) ->
       Presentations.title p <> "" /\ Presentations.slideCount p <> None) ->
    forall p, In p (presentations (db (serve_all rs w))) ->
      Presentations.title p <> "" /\ Presentations.slideCount p <> None).
  { unfold serve_all. induction rs as [|r rs IH]; simpl; intros w Inv; [exact Inv|].
    apply IH. now apply serve_keeps_titles. }
  apply G. intros p [].
Qed.

Lemma stored_presentations_have_a_title_and_a_count_witness :
  Presentations.title (deck "p1" "alice" 2 10 30) <> ""
  /\ Presentations.slideCount (deck "p1" "alice" 2 10 30) <> None.
Proof.
  apply (stored_presentations_have_a_title_and_a_count scenario (deck "p1" "alice" 2 10 30)).
  left. reflexivity.
Defined.
